(** * vbchart: a shallow embedding of the vertical bar chart renderer

    The development follows [src/vbchart/__init__.py].  Python values are
    modelled as follows.

    - A [str] is a list of Unicode code points ([pystr]); [len] is [length].
    - An [int] is a [Z].
    - A [float] is a [pyfloat]: a rational number, or one of the three special
      values [inf], [-inf] and [nan].  Arithmetic on finite values is exact:
      the rounding of binary64 results, overflow to infinity and the sign of
      zero are not modelled.  Comparisons and arithmetic on the special values
      follow IEEE 754 as Python exposes it.  A theorem whose conclusion
      binary64 overflow would change carries a bound on the magnitudes
      ([no_overflow_bound]), and a theorem about a rounded quotient states an
      enclosure wide enough for the rounding of binary64, so that what is
      proved here also holds of the floats the code computes with.
    - A call that may raise returns a [result]. *)

From Stdlib Require Import ZArith QArith Qround Qabs List Bool Lia Lqa String Ascii.
From Equations Require Import Equations.
Import ListNotations.

Open Scope Z_scope.

(** ** Exceptions *)

Inductive pyexn : Type :=
| OverflowError      (* round(inf) *)
| ValueError         (* round(nan), a bad conversion in a format *)
| ZeroDivisionError  (* x / 0.0 *)
| TypeError          (* a format template that does not fit its argument *)
| KeyError.          (* a key missing from a dict *)

Inductive result (A : Type) : Type :=
| Ok (a : A)
| Raise (e : pyexn).

Arguments Ok {A} a.
Arguments Raise {A} e.

Definition bind {A B : Type} (m : result A) (k : A -> result B) : result B :=
  match m with
  | Ok a => k a
  | Raise e => Raise e
  end.

Notation "x <- m ;; k" := (bind m (fun x => k))
  (at level 61, m at next level, right associativity).

(** A list comprehension whose element expression may raise. *)
Fixpoint mapM {A B : Type} (f : A -> result B) (l : list A) : result (list B) :=
  match l with
  | [] => Ok []
  | a :: l' => b <- f a ;; bs <- mapM f l' ;; Ok (b :: bs)
  end.

(** ** Strings *)

Definition char : Type := N.
Definition pystr : Type := list char.

Definition str (s : string) : pystr :=
  map N_of_ascii (list_ascii_of_string s).

Definition ESC : char := 27%N.        (* '\x1b' *)
Definition LBRACKET : char := 91%N.   (* '[' *)
Definition LOWER_M : char := 109%N.   (* 'm' *)
Definition SPACE : char := 32%N.      (* ' ' *)
Definition NEWLINE : char := 10%N.    (* '\n' *)

Definition pystr_eqb (a b : pystr) : bool :=
  if list_eq_dec N.eq_dec a b then true else false.

(** [len(s)] *)
Definition len {A : Type} (l : list A) : Z := Z.of_nat (List.length l).

(** [c * n] for a one-character string [c]: empty when [n <= 0]. *)
Definition str_mul (c : char) (n : Z) : pystr := repeat c (Z.to_nat n).

(** [s.rjust(w)] *)
Definition rjust (s : pystr) (w : Z) : pystr :=
  str_mul SPACE (w - len s) ++ s.

(** [sep.join(parts)] *)
Fixpoint join (sep : pystr) (parts : list pystr) : pystr :=
  match parts with
  | [] => []
  | [p] => p
  | p :: ps => p ++ sep ++ join sep ps
  end.

(** [str(n)] for an int. *)
Definition digit_char (d : Z) : char := Z.to_N (48 + d).

Fixpoint pos_digits (fuel : nat) (n : Z) (acc : pystr) : pystr :=
  match fuel with
  | O => acc
  | S fuel' =>
      if n <? 10 then digit_char n :: acc
      else pos_digits fuel' (n / 10) (digit_char (n mod 10) :: acc)
  end.

Definition str_of_int (n : Z) : pystr :=
  if n <? 0 then 45%N :: pos_digits (Z.to_nat (- n)) (- n) []
  else pos_digits (S (Z.to_nat n)) n [].

(** ** Floats *)

Inductive pyfloat : Type :=
| Fin (q : Q)
| PInf
| NInf
| NaN.

Definition Qlt_bool (x y : Q) : bool := negb (Qle_bool y x).

(** [a < b] *)
Definition flt_lt (a b : pyfloat) : bool :=
  match a, b with
  | NaN, _ | _, NaN => false
  | Fin x, Fin y => Qlt_bool x y
  | NInf, NInf => false
  | NInf, _ => true
  | _, NInf => false
  | PInf, _ => false
  | Fin _, PInf => true
  end.

(** [a <= b] *)
Definition flt_le (a b : pyfloat) : bool :=
  match a, b with
  | NaN, _ | _, NaN => false
  | Fin x, Fin y => Qle_bool x y
  | NInf, _ => true
  | _, PInf => true
  | PInf, _ => false
  | Fin _, NInf => false
  end.

(** [a == b] *)
Definition flt_eq (a b : pyfloat) : bool :=
  match a, b with
  | Fin x, Fin y => Qeq_bool x y
  | PInf, PInf => true
  | NInf, NInf => true
  | _, _ => false
  end.

(** [-a] *)
Definition flt_neg (a : pyfloat) : pyfloat :=
  match a with
  | Fin x => Fin (- x)
  | PInf => NInf
  | NInf => PInf
  | NaN => NaN
  end.

(** [abs(a)] *)
Definition flt_abs (a : pyfloat) : pyfloat :=
  match a with
  | Fin x => Fin (Qabs x)
  | PInf | NInf => PInf
  | NaN => NaN
  end.

(** [a * b] *)
Definition flt_mul (a b : pyfloat) : pyfloat :=
  match a, b with
  | NaN, _ | _, NaN => NaN
  | Fin x, Fin y => Fin (x * y)
  | Fin x, PInf | PInf, Fin x =>
      if Qlt_bool 0 x then PInf else if Qlt_bool x 0 then NInf else NaN
  | Fin x, NInf | NInf, Fin x =>
      if Qlt_bool 0 x then NInf else if Qlt_bool x 0 then PInf else NaN
  | PInf, PInf | NInf, NInf => PInf
  | PInf, NInf | NInf, PInf => NInf
  end.

(** [a / b]: Python raises on a zero divisor, whatever the dividend. *)
Definition flt_div (a b : pyfloat) : result pyfloat :=
  match a, b with
  | _, Fin y =>
      if Qeq_bool y 0 then Raise ZeroDivisionError
      else match a with
           | Fin x => Ok (Fin (x / y))
           | PInf => Ok (if Qlt_bool 0 y then PInf else NInf)
           | NInf => Ok (if Qlt_bool 0 y then NInf else PInf)
           | NaN => Ok NaN
           end
  | NaN, _ | _, NaN => Ok NaN
  | Fin _, _ => Ok (Fin 0)
  | _, _ => Ok NaN
  end.

(** [max(a, b)] and [min(a, b)]: the builtin keeps its first argument unless a
    later one compares strictly greater (smaller), so a [nan] that comes
    second is dropped. *)
Definition py_max (a b : pyfloat) : pyfloat := if flt_lt a b then b else a.
Definition py_min (a b : pyfloat) : pyfloat := if flt_lt b a then b else a.

(** [max(g)] over an iterable of floats: an empty one raises. *)
Definition py_max_list (l : list pyfloat) : result pyfloat :=
  match l with
  | [] => Raise ValueError
  | first :: rest => Ok (fold_left py_max rest first)
  end.

(** Rounding to the nearest integer, ties to the even one. *)
Definition round_half_even (q : Q) : Z :=
  let f := Qfloor q in
  match (q - inject_Z f ?= 1 # 2)%Q with
  | Lt => f
  | Gt => f + 1
  | Eq => if Z.even f then f else f + 1
  end.

(** [round(x)] with one argument. *)
Definition py_round (x : pyfloat) : result Z :=
  match x with
  | Fin q => Ok (round_half_even q)
  | PInf | NInf => Raise OverflowError
  | NaN => Raise ValueError
  end.

(** [math.ceil(x)] *)
Definition math_ceil (x : pyfloat) : result Z :=
  match x with
  | Fin q => Ok (Qceiling q)
  | PInf | NInf => Raise OverflowError
  | NaN => Raise ValueError
  end.

(** [float(n)] for an int. *)
Definition float_of_int (n : Z) : pyfloat := Fin (inject_Z n).

(** Truth value of a float: false exactly for zero. *)
Definition flt_truthy (a : pyfloat) : bool := negb (flt_eq a (Fin 0)).

(** ** Escape sequences *)

(** [s[i] == '\x1b' and i + 1 < n and s[i + 1] == '[']: when the text at the
    current position opens an escape sequence, the text after the opener. *)
Definition opener (s : pystr) : option pystr :=
  match s with
  | c :: c2 :: rest =>
      if ((c =? ESC) && (c2 =? LBRACKET))%N then Some rest else None
  | _ => None
  end.

(** [while j < n and s[j] != 'm': j += 1], then [if j < n]: the parameters
    before the first ['m'] and the text after it, if there is one. *)
Fixpoint split_m (s : pystr) : option (pystr * pystr) :=
  match s with
  | [] => None
  | c :: s' =>
      if (c =? LOWER_M)%N then Some ([], s')
      else match split_m s' with
           | Some (body, rest) => Some (c :: body, rest)
           | None => None
           end
  end.

(** [while i < len(s) and s[i] != 'm': i += 1], then [i += 1]: the text after
    the first ['m'], nothing if there is none. *)
Fixpoint skip_m (s : pystr) : pystr :=
  match s with
  | [] => []
  | c :: s' => if (c =? LOWER_M)%N then s' else skip_m s'
  end.

Lemma opener_length (s after : pystr) :
  opener s = Some after -> List.length s = S (S (List.length after)).
Proof.
  destruct s as [|c [|c2 rest]]; simpl; try discriminate.
  destruct ((c =? ESC) && (c2 =? LBRACKET))%N; [|discriminate].
  intros [= <-]. reflexivity.
Qed.

Lemma split_m_length (s body rest : pystr) :
  split_m s = Some (body, rest) ->
  List.length s = S (List.length body + List.length rest).
Proof.
  revert body rest. induction s as [|c s IH]; simpl; intros body rest; [discriminate|].
  destruct (c =? LOWER_M)%N.
  - intros [= <- <-]. reflexivity.
  - destruct (split_m s) as [[b r]|]; [|discriminate].
    intros [= <- <-]. simpl. rewrite (IH b r eq_refl). reflexivity.
Qed.

Lemma skip_m_length (s : pystr) : (List.length (skip_m s) <= List.length s)%nat.
Proof.
  induction s as [|c s IH]; simpl; [lia|].
  destruct (c =? LOWER_M)%N; lia.
Qed.

Definition inspect {A : Type} (a : A) : {b : A | a = b} := exist _ a eq_refl.

Module AnsiHelp.

(** The [while i < n and vis < max_cols] loop of [truncate_visible], at a
    position with [s] still to read and [vis] columns used; the result is
    what the loop appends to [out] from here on. *)
Equations? truncate_from (max_cols : Z) (s : pystr) (vis : Z) : pystr
  by wf (List.length s) lt :=
  truncate_from max_cols [] vis := [];
  truncate_from max_cols (c :: rest) vis with (vis <? max_cols) => {
    | false => [];
    | true with inspect (opener (c :: rest)) => {
        | exist _ (Some after) Hopen with inspect (split_m after) => {
            (* copy the whole SGR sequence *)
            | exist _ (Some (body, rest')) Hsplit =>
                (ESC :: LBRACKET :: body ++ [LOWER_M])
                  ++ truncate_from max_cols rest' vis;
            (* malformed escape; stop safely *)
            | exist _ None _ => [] };
        | exist _ None _ => c :: truncate_from max_cols rest (vis + 1) } }.
Proof.
  apply (opener_length (c :: rest)) in Hopen.
  apply split_m_length in Hsplit. simpl in Hopen. lia.
Qed.

Definition truncate_visible (s : pystr) (max_cols : Z) : pystr :=
  if max_cols <=? 0 then [] else truncate_from max_cols s 0.

(** [sgr] is [None] for Python's [None]; [if not sgr] also covers the empty
    string. *)
Definition _sgr_wrap (sgr : option pystr) (text : pystr) : pystr :=
  match sgr with
  | None | Some [] => text
  | Some p => (ESC :: LBRACKET :: p ++ [LOWER_M])
                ++ text ++ [ESC; LBRACKET; 48%N; LOWER_M]
  end.

End AnsiHelp.

(** The text that [_visible_len] collects in [out]. *)
Equations? visible_chars (s : pystr) : pystr by wf (List.length s) lt :=
  visible_chars [] := [];
  visible_chars (c :: rest) with inspect (opener (c :: rest)) => {
    (* consume until 'm' (SGR) *)
    | exist _ (Some after) Hopen => visible_chars (skip_m after);
    | exist _ None _ => c :: visible_chars rest }.
Proof.
  apply (opener_length (c :: rest)) in Hopen.
  pose proof (skip_m_length after). simpl in Hopen. lia.
Qed.

Definition _visible_len (s : pystr) : Z := len (visible_chars s).


(** ** The chart *)

Inductive kind : Type := pos | neg | zero.

(** The keyword arguments of the colour callback. *)
Record CellStyleContext : Type := {
  value_left : pyfloat;
  value_right : pyfloat;
  pct_left : pyfloat;
  pct_right : pyfloat;
  row_kind : kind;
  row : Z;
  glyph : char
}.

Definition ValueColorCallback : Type := CellStyleContext -> option pystr.

(** The dataclass.  [values] holds the floats that [float(v)] yields for the
    caller's numbers. *)
Record VerticalBarChart : Type := {
  values : list pyfloat;
  title : option pystr;
  width : option Z;
  max_value : option pyfloat;
  clamp_to_100 : bool;
  show_y_axis : bool;
  show_rule : bool;
  unicode : bool;
  y_label_fmt : option pystr;
  _border_enabled : bool;
  _border_sgr : option pystr;
  _border_style_name : pystr;
  _label_sgr : option pystr;
  _axis_sgr : option pystr;
  _bar_sgr : option pystr;
  _value_color_cb : option ValueColorCallback
}.

(** [VerticalBarChart(values)]: the defaults of the dataclass. *)
Definition default_chart (vals : list pyfloat) : VerticalBarChart :=
  {| values := vals; title := None; width := None; max_value := None;
     clamp_to_100 := true; show_y_axis := true; show_rule := true;
     unicode := true; y_label_fmt := None;
     _border_enabled := false; _border_sgr := None;
     _border_style_name := str "single";
     _label_sgr := None; _axis_sgr := None; _bar_sgr := None;
     _value_color_cb := None |}.

(** Setters of the constructor keywords and of the styling state that the
    properties below use. *)
Definition with_clamp_to_100 (b : bool) (c : VerticalBarChart) : VerticalBarChart :=
  {| values := values c; title := title c; width := width c;
     max_value := max_value c; clamp_to_100 := b;
     show_y_axis := show_y_axis c; show_rule := show_rule c;
     unicode := unicode c; y_label_fmt := y_label_fmt c;
     _border_enabled := _border_enabled c; _border_sgr := _border_sgr c;
     _border_style_name := _border_style_name c;
     _label_sgr := _label_sgr c; _axis_sgr := _axis_sgr c;
     _bar_sgr := _bar_sgr c; _value_color_cb := _value_color_cb c |}.

Definition with_width (w : option Z) (c : VerticalBarChart) : VerticalBarChart :=
  {| values := values c; title := title c; width := w;
     max_value := max_value c; clamp_to_100 := clamp_to_100 c;
     show_y_axis := show_y_axis c; show_rule := show_rule c;
     unicode := unicode c; y_label_fmt := y_label_fmt c;
     _border_enabled := _border_enabled c; _border_sgr := _border_sgr c;
     _border_style_name := _border_style_name c;
     _label_sgr := _label_sgr c; _axis_sgr := _axis_sgr c;
     _bar_sgr := _bar_sgr c; _value_color_cb := _value_color_cb c |}.

Definition with_max_value (m : option pyfloat) (c : VerticalBarChart) : VerticalBarChart :=
  {| values := values c; title := title c; width := width c;
     max_value := m; clamp_to_100 := clamp_to_100 c;
     show_y_axis := show_y_axis c; show_rule := show_rule c;
     unicode := unicode c; y_label_fmt := y_label_fmt c;
     _border_enabled := _border_enabled c; _border_sgr := _border_sgr c;
     _border_style_name := _border_style_name c;
     _label_sgr := _label_sgr c; _axis_sgr := _axis_sgr c;
     _bar_sgr := _bar_sgr c; _value_color_cb := _value_color_cb c |}.

Definition SetBorder (enabled : bool) (sgr : option pystr) (charset : pystr)
  (c : VerticalBarChart) : VerticalBarChart :=
  {| values := values c; title := title c; width := width c;
     max_value := max_value c; clamp_to_100 := clamp_to_100 c;
     show_y_axis := show_y_axis c; show_rule := show_rule c;
     unicode := unicode c; y_label_fmt := y_label_fmt c;
     _border_enabled := enabled; _border_sgr := sgr;
     _border_style_name := charset;
     _label_sgr := _label_sgr c; _axis_sgr := _axis_sgr c;
     _bar_sgr := _bar_sgr c; _value_color_cb := _value_color_cb c |}.

(** The argument of [fmt % x] in [_render_y_label]: the int [0] or a float. *)
Inductive pynum : Type :=
| PyInt (n : Z)
| PyFloat (x : pyfloat).

Definition _clamp_int (x lo hi : Z) : Z :=
  if x <? lo then lo else if x >? hi then hi else x.

(** [range(lo, hi)] *)
Definition range (lo hi : Z) : list Z :=
  map (fun i => lo + Z.of_nat i) (seq 0 (Z.to_nat (hi - lo))).

(** [range(10, 0, -1)] *)
Definition range_10_down : list Z := [10; 9; 8; 7; 6; 5; 4; 3; 2; 1].

(** [max(g)] over a non-empty iterable of ints. *)
Definition max_int_list (l : list Z) : Z :=
  match l with
  | [] => 0
  | x :: l' => fold_left Z.max l' x
  end.

(** The packing loop of [__str__]: [(v0, v1), (v2, v3), ...], a missing last
    right value being [0.0]. *)
Fixpoint pack (vals : list pyfloat) : list pyfloat * list pyfloat :=
  match vals with
  | [] => ([], [])
  | [a] => ([a], [Fin 0])
  | a :: b :: rest => let (l, r) := pack rest in (a :: l, b :: r)
  end.

(** The loop that finds [max_neg_steps]. *)
Definition max_neg_steps_of (steps : list Z) : Z :=
  fold_left (fun m s => if s <? 0 then Z.max m (- s) else m) steps 0.

(** [zip(left_vals, right_vals, left_steps_total, right_steps_total)] *)
Fixpoint zip4 {A B C D : Type} (a : list A) (b : list B) (c : list C) (d : list D)
  : list (A * B * C * D) :=
  match a, b, c, d with
  | x :: a', y :: b', z :: c', w :: d' => (x, y, z, w) :: zip4 a' b' c' d'
  | _, _, _, _ => []
  end.

(** [l[:n]] *)
Definition take {A : Type} (n : Z) (l : list A) : list A := firstn (Z.to_nat n) l.

Record BorderChars : Type := {
  tl : char; tr : char; bl : char; br : char; h : char; v : char
}.

Section Chart.

(** What the renderer asks of its environment: the column count of the
    terminal, [get_terminal_size(fallback=(80, 24)).columns], and Python's
    [fmt % x]. *)
Variable terminal_columns : Z.
Variable str_format : pystr -> pynum -> result pystr.

Variable self : VerticalBarChart.

Definition _term_cols : Z :=
  match width self with
  | Some w => Z.max 20 w
  | None => Z.max 20 terminal_columns
  end.

(** [(value / denom) * 100.0] *)
Definition percent_of (value denom : pyfloat) : result pyfloat :=
  ratio <- flt_div value denom ;;
  Ok (flt_mul ratio (Fin 100)).

Definition _to_signed_steps_5pct (value denom : pyfloat) : result Z :=
  if flt_le denom (Fin 0) then Ok 0
  else
    pct <- percent_of value denom ;;
    let pct :=
      if clamp_to_100 self then py_max (Fin (-100)) (py_min (Fin 100) pct)
      else pct in
    scaled <- flt_div pct (Fin 5) ;;
    steps <- py_round scaled ;;
    Ok (_clamp_int steps (-20) 20).

Definition ascii_glyph (l_steps r_steps : Z) : char :=
  let l_on := l_steps >? 0 in
  let r_on := r_steps >? 0 in
  if l_on && r_on then 35%N          (* '#' *)
  else if l_on then 76%N             (* 'L' *)
  else if r_on then 82%N             (* 'R' *)
  else SPACE.

Definition _glyph_pos (l_steps r_steps : Z) : result char :=
  if negb (unicode self) then Ok (ascii_glyph l_steps r_steps)
  else
    match l_steps, r_steps with
    | 0, 0 => Ok SPACE
    | 0, 1 => Ok 0x2597%N   (* quadrant lower right *)
    | 0, 2 => Ok 0x2590%N   (* right half block *)
    | 1, 0 => Ok 0x2596%N   (* quadrant lower left *)
    | 1, 1 => Ok 0x2584%N   (* lower half block *)
    | 1, 2 => Ok 0x259f%N   (* all but the upper left quadrant *)
    | 2, 0 => Ok 0x258c%N   (* left half block *)
    | 2, 1 => Ok 0x2599%N   (* all but the upper right quadrant *)
    | 2, 2 => Ok 0x2588%N   (* full block *)
    | _, _ => Raise KeyError
    end.

Definition _glyph_neg (l_steps r_steps : Z) : result char :=
  if negb (unicode self) then Ok (ascii_glyph l_steps r_steps)
  else
    match l_steps, r_steps with
    | 0, 0 => Ok SPACE
    | 0, 1 => Ok 0x259d%N   (* quadrant upper right *)
    | 0, 2 => Ok 0x2590%N   (* right half block *)
    | 1, 0 => Ok 0x2598%N   (* quadrant upper left *)
    | 1, 1 => Ok 0x2580%N   (* upper half block *)
    | 1, 2 => Ok 0x259c%N   (* all but the lower left quadrant *)
    | 2, 0 => Ok 0x258c%N   (* left half block *)
    | 2, 1 => Ok 0x259b%N   (* all but the lower right quadrant *)
    | 2, 2 => Ok 0x2588%N   (* full block *)
    | _, _ => Raise KeyError
    end.

Definition _default_forced_fmt : pystr :=
  match y_label_fmt self with
  | Some fmt => fmt
  | None => str "%+d "
  end.

Definition _render_y_label (k : kind) (r : Z) (denom : pyfloat) (forced : bool)
  : result pystr :=
  if negb forced then
    match k with
    | zero => Ok (str "  0% ")
    | _ =>
        let sign := match k with pos => 1 | _ => -1 end in
        Ok (rjust (str_of_int (sign * r * 10)) 3 ++ str "% ")
    end
  else
    let fmt := _default_forced_fmt in
    match k with
    | zero => str_format fmt (PyInt 0)
    | _ =>
        let sign := match k with pos => 1 | _ => -1 end in
        q <- flt_div (flt_mul denom (float_of_int r)) (Fin 10) ;;
        str_format fmt (PyFloat (flt_mul (float_of_int sign) q))
    end.

Definition _style_cell (g : char) (vl vr denom : pyfloat) (k : kind) (r : Z)
  : result pystr :=
  match _value_color_cb self with
  | Some cb =>
      (* If callback exists, it wins. *)
      pl <- (if flt_truthy denom then flt_div vl denom else Ok (Fin 0)) ;;
      pr <- (if flt_truthy denom then flt_div vr denom else Ok (Fin 0)) ;;
      let sgr := cb {| value_left := vl; value_right := vr;
                       pct_left := pl; pct_right := pr;
                       row_kind := k; row := r; glyph := g |} in
      Ok (AnsiHelp._sgr_wrap sgr [g])
  | None =>
      (* Otherwise default bar sgr. *)
      Ok (AnsiHelp._sgr_wrap (_bar_sgr self) [g])
  end.

Definition _border_chars : BorderChars :=
  if pystr_eqb (_border_style_name self) (str "double") then
    {| tl := 0x2554%N; tr := 0x2557%N; bl := 0x255a%N; br := 0x255d%N;
       h := 0x2550%N; v := 0x2551%N |}
  else if pystr_eqb (_border_style_name self) (str "ascii") then
    {| tl := 43%N; tr := 43%N; bl := 43%N; br := 43%N; h := 45%N; v := 124%N |}
  else
    (* default: single *)
    {| tl := 0x250c%N; tr := 0x2510%N; bl := 0x2514%N; br := 0x2518%N;
       h := 0x2500%N; v := 0x2502%N |}.

Definition _add_border (lines : list pystr) : list pystr :=
  if negb (_border_enabled self) || match lines with [] => true | _ => false end
  then lines
  else
    let cs := _border_chars in
    let content_w := max_int_list (map _visible_len lines) in
    let B := AnsiHelp._sgr_wrap (_border_sgr self) in
    (* Top / bottom are easiest: wrap the entire line in border SGR. *)
    let top_plain := [tl cs] ++ str_mul (h cs) (content_w + 2) ++ [tr cs] in
    let bot_plain := [bl cs] ++ str_mul (h cs) (content_w + 2) ++ [br cs] in
    (* Sides: wrap only the border glyphs, never the interior. *)
    let left_v := B [v cs] in
    let right_v := B [v cs] in
    [B top_plain]
      ++ map (fun ln =>
                let pad := content_w - _visible_len ln in
                left_v ++ [SPACE] ++ ln ++ str_mul SPACE pad ++ [SPACE] ++ right_v)
             lines
      ++ [B bot_plain].

(** *** Rendering: the body of [__str__] *)

(** Lines 314-316: the scale denominator. *)
Definition resolve_denom (vals : list pyfloat) : result pyfloat :=
  denom <- match max_value self with
           | Some m => Ok m
           | None => py_max_list (map flt_abs vals)
           end ;;
  if flt_le denom (Fin 0) then Ok (Fin 1) else Ok denom.

(** Lines 330-335: the number of negative rows. *)
Definition neg_rows_of (steps : list Z) : result Z :=
  half <- flt_div (float_of_int (max_neg_steps_of steps)) (Fin 2) ;;
  math_ceil half.

(** Lines 339-346: the width of the y axis. *)
Definition y_axis_width (denom : pyfloat) (forced : bool) (neg_rows : Z)
  : result Z :=
  if show_y_axis self then
    labels <- mapM (fun r => _render_y_label pos r denom forced) range_10_down ;;
    more <- (if neg_rows >? 0 then
               l0 <- _render_y_label zero 0 denom forced ;;
               ln <- mapM (fun r => _render_y_label neg r denom forced)
                          (range 1 (neg_rows + 1)) ;;
               Ok (l0 :: ln)
             else Ok []) ;;
    Ok (max_int_list (map len (labels ++ more)))
  else Ok 0.

(** Lines 359-365: the title and its rule. *)
Definition title_lines (cols : Z) : list pystr :=
  match title self with
  | None | Some [] => []
  | Some t =>
      let title_line := AnsiHelp.truncate_visible t cols in
      AnsiHelp._sgr_wrap (_label_sgr self) title_line
        :: (if show_rule self then
              let rule := str_mul (if unicode self then 0x2500%N else 45%N)
                                  (Z.min cols (Z.max 10 (len t))) in
              [AnsiHelp._sgr_wrap (_axis_sgr self) rule]
            else [])
  end.

(** The label that starts a row, when the axis is shown. *)
Definition label_part (k : kind) (r : Z) (denom : pyfloat) (forced : bool)
  (y_w : Z) : result (list pystr) :=
  if show_y_axis self then
    lbl <- _render_y_label k r denom forced ;;
    Ok [AnsiHelp._sgr_wrap (_label_sgr self) (rjust lbl y_w)]
  else Ok [].

(** Lines 376-389: one cell of a positive row. *)
Definition pos_cell (r : Z) (denom : pyfloat)
  (c : pyfloat * pyfloat * Z * Z) : result pystr :=
  let '(lv, rv, ls, rs) := c in
  let steps_below := (r - 1) * 2 in
  let lmag := if ls >? 0 then ls else 0 in
  let rmag := if rs >? 0 then rs else 0 in
  let l_in_row := _clamp_int (lmag - steps_below) 0 2 in
  let r_in_row := _clamp_int (rmag - steps_below) 0 2 in
  g <- _glyph_pos l_in_row r_in_row ;;
  _style_cell g lv rv denom pos r.

(** Lines 412-425: one cell of a negative row. *)
Definition neg_cell (r : Z) (denom : pyfloat)
  (c : pyfloat * pyfloat * Z * Z) : result pystr :=
  let '(lv, rv, ls, rs) := c in
  let steps_below := (r - 1) * 2 in
  let lmag := if ls <? 0 then - ls else 0 in
  let rmag := if rs <? 0 then - rs else 0 in
  let l_in_row := _clamp_int (lmag - steps_below) 0 2 in
  let r_in_row := _clamp_int (rmag - steps_below) 0 2 in
  g <- _glyph_neg l_in_row r_in_row ;;
  _style_cell g lv rv denom neg r.

(** Lines 368-391 and 405-427: one row of the positive or negative region. *)
Definition bar_row (k : kind) (cols : Z) (denom : pyfloat) (forced : bool)
  (y_w : Z) (cells : list (pyfloat * pyfloat * Z * Z)) (r : Z) : result pystr :=
  lbl <- label_part k r denom forced y_w ;;
  cs <- mapM (match k with pos => pos_cell r denom | _ => neg_cell r denom end)
             cells ;;
  Ok (AnsiHelp.truncate_visible (List.concat (lbl ++ cs)) cols).

(** Lines 394-434: the zero axis with the negative rows, or the baseline. *)
Definition lower_lines (cols : Z) (denom : pyfloat) (forced : bool)
  (y_w neg_rows : Z) (cells : list (pyfloat * pyfloat * Z * Z))
  (n_left : Z) : result (list pystr) :=
  let axis_char := if unicode self then 0x2500%N else 45%N in
  let axis := AnsiHelp._sgr_wrap (_axis_sgr self) (str_mul axis_char n_left) in
  if neg_rows >? 0 then
    lbl0 <- label_part zero 0 denom forced y_w ;;
    let axis_line := AnsiHelp.truncate_visible (List.concat (lbl0 ++ [axis])) cols in
    rows <- mapM (bar_row neg cols denom forced y_w cells)
                 (range 1 (neg_rows + 1)) ;;
    Ok (axis_line :: rows)
  else
    let blank := if show_y_axis self then [str_mul SPACE y_w] else [] in
    Ok [AnsiHelp.truncate_visible (List.concat (blank ++ [axis])) cols].

(** Lines 312-434: the content lines of a chart with data, before the
    border. *)
Definition content_lines (vals : list pyfloat) : result (list pystr) :=
  let cols := _term_cols in
  denom <- resolve_denom vals ;;
  let (left_vals, right_vals) := pack vals in
  left_steps_total <- mapM (fun x => _to_signed_steps_5pct x denom) left_vals ;;
  right_steps_total <- mapM (fun x => _to_signed_steps_5pct x denom) right_vals ;;
  neg_rows <- neg_rows_of (left_steps_total ++ right_steps_total) ;;
  let forced_labels :=
    match max_value self, y_label_fmt self with
    | None, None => false
    | _, _ => true
    end in
  y_w <- y_axis_width denom forced_labels neg_rows ;;
  let usable := cols - y_w in
  let max_cols := Z.max 1 usable in
  let left_vals := take max_cols left_vals in
  let right_vals := take max_cols right_vals in
  let left_steps_total := take max_cols left_steps_total in
  let right_steps_total := take max_cols right_steps_total in
  let cells := zip4 left_vals right_vals left_steps_total right_steps_total in
  upper <- mapM (bar_row pos cols denom forced_labels y_w cells) range_10_down ;;
  lower <- lower_lines cols denom forced_labels y_w neg_rows cells (len left_vals) ;;
  Ok (title_lines cols ++ upper ++ lower).

Definition __str__ : result pystr :=
  match values self with
  | [] => Ok (str "(no data)")
  | vals =>
      lines <- content_lines vals ;;
      Ok (join [NEWLINE] (_add_border lines))
  end.

End Chart.


(** ** Notions that the properties are stated with *)

(** The clamp of [pct] to [[-100, 100]] by [max(-100.0, min(100.0, pct))]. *)
Definition clamp_pct (pct : pyfloat) : pyfloat :=
  py_max (Fin (-100)) (py_min (Fin 100) pct).

(** A text that starts with the two characters [ESC] and ['[']. *)
Definition starts_escape (s : pystr) : Prop :=
  exists rest, s = ESC :: LBRACKET :: rest.

(** [sgr_count s n]: [s] is made of plain characters and of complete escape
    sequences [ESC '[' ... 'm'], and [n] of its characters are plain, that is,
    outside the escape sequences. *)
Inductive sgr_count : pystr -> Z -> Prop :=
| sgr_count_nil : sgr_count [] 0
| sgr_count_plain (c : char) (rest : pystr) (n : Z) :
    ~ starts_escape (c :: rest) ->
    sgr_count rest n ->
    sgr_count (c :: rest) (n + 1)
| sgr_count_seq (body rest : pystr) (n : Z) :
    ~ In LOWER_M body ->
    sgr_count rest n ->
    sgr_count (ESC :: LBRACKET :: body ++ LOWER_M :: rest) n.

(** A text in which every escape sequence is complete. *)
Definition complete_sgr (s : pystr) : Prop := exists n, sgr_count s n.

(** A text that does not start with ['[']: appended to a text that ends with
    [ESC], it does not turn that [ESC] into an opener. *)
Definition head_ok (s : pystr) : Prop :=
  match s with
  | [] => True
  | c :: _ => c <> LBRACKET
  end.

(** An SGR parameter string, which [_sgr_wrap] documents as not including
    [ESC '['] and ['m']: one without an ['m']. *)
Definition sgr_param (sgr : option pystr) : Prop :=
  match sgr with
  | None => True
  | Some p => ~ In LOWER_M p
  end.

(** The largest magnitude among the negative steps, 0 when none is
    negative. *)
Definition max_negative_magnitude (steps : list Z) : Z :=
  fold_right Z.max 0 (map Z.opp (filter (fun s => s <? 0) steps)).

(** [N = ceil(maxNegativeStepMagnitude / 2)] *)
Definition negative_row_count_spec (steps : list Z) : Z :=
  Qceiling (inject_Z (max_negative_magnitude steps) / 2).

(** * Properties *)

(** ** Rounding and comparison of floats *)

#[export] Instance round_half_even_comp : Proper (Qeq ==> eq) round_half_even.
Proof.
  intros x y Hxy. unfold round_half_even.
  rewrite (Qfloor_comp _ _ Hxy).
  assert (E : (x - inject_Z (Qfloor y) ?= 1 # 2)%Q
              = (y - inject_Z (Qfloor y) ?= 1 # 2)%Q)
    by (apply Qcompare_comp; [rewrite Hxy|]; reflexivity).
  rewrite E. reflexivity.
Qed.

Lemma round_half_even_Z (k : Z) : round_half_even (inject_Z k) = k.
Proof.
  unfold round_half_even. rewrite Qfloor_Z.
  assert (E : (inject_Z k - inject_Z k ?= 1 # 2)%Q = Lt).
  { apply Qlt_alt. setoid_replace (inject_Z k - inject_Z k)%Q with 0%Q by ring.
    reflexivity. }
  rewrite E. reflexivity.
Qed.

Lemma round_half_even_lower (k : Z) (q : Q) :
  (inject_Z k <= q)%Q -> k <= round_half_even q.
Proof.
  intros H. apply Qfloor_resp_le in H. rewrite Qfloor_Z in H.
  unfold round_half_even.
  destruct (q - inject_Z (Qfloor q) ?= 1 # 2)%Q; [destruct (Z.even _)| |]; lia.
Qed.

Lemma round_half_even_upper (k : Z) (q : Q) :
  (q <= inject_Z k)%Q -> round_half_even q <= k.
Proof.
  intros H. pose proof (Qfloor_resp_le _ _ H) as Hf. rewrite Qfloor_Z in Hf.
  destruct (Z.eq_dec (Qfloor q) k) as [E|E].
  - assert (Hq : (q == inject_Z k)%Q).
    { apply Qle_antisym; [exact H|]. rewrite <- E. apply Qfloor_le. }
    rewrite Hq, round_half_even_Z. lia.
  - unfold round_half_even.
    destruct (q - inject_Z (Qfloor q) ?= 1 # 2)%Q; [destruct (Z.even _)| |]; lia.
Qed.

Lemma Qlt_bool_iff (x y : Q) : Qlt_bool x y = true <-> (x < y)%Q.
Proof.
  unfold Qlt_bool. rewrite negb_true_iff, <- not_true_iff_false, Qle_bool_iff.
  split; [apply Qnot_le_lt | apply Qlt_not_le].
Qed.

Lemma Qlt_bool_false_iff (x y : Q) : Qlt_bool x y = false <-> (y <= x)%Q.
Proof.
  unfold Qlt_bool. rewrite negb_false_iff. apply Qle_bool_iff.
Qed.

Lemma _clamp_int_range (x lo hi : Z) : lo <= hi -> lo <= _clamp_int x lo hi <= hi.
Proof.
  intros H. unfold _clamp_int.
  destruct (x <? lo) eqn:E1; [lia|].
  destruct (x >? hi) eqn:E2; lia.
Qed.

Lemma _clamp_int_id (x lo hi : Z) : lo <= x <= hi -> _clamp_int x lo hi = x.
Proof.
  intros H. unfold _clamp_int.
  destruct (x <? lo) eqn:E1; [lia|].
  destruct (x >? hi) eqn:E2; lia.
Qed.

Lemma _clamp_int_above (x lo hi : Z) : lo <= hi -> hi <= x -> _clamp_int x lo hi = hi.
Proof.
  intros H1 H2. unfold _clamp_int.
  destruct (x <? lo) eqn:E1; [lia|].
  destruct (x >? hi) eqn:E2; lia.
Qed.

Lemma _clamp_int_below (x lo hi : Z) : lo <= hi -> x <= lo -> _clamp_int x lo hi = lo.
Proof.
  intros H0 H. unfold _clamp_int.
  destruct (x <? lo) eqn:E1; [reflexivity|].
  destruct (x >? hi) eqn:E2; lia.
Qed.

(** ** Quantisation: [_to_signed_steps_5pct] *)

Lemma flt_le_zero_false (denom : pyfloat) :
  flt_le denom (Fin 0) = false ->
  (exists d, denom = Fin d /\ (0 < d)%Q) \/ denom = PInf \/ denom = NaN.
Proof.
  destruct denom as [d| | |]; simpl; intros H; try discriminate; auto.
  left. exists d. split; [reflexivity|].
  apply Qnot_le_lt. intros Hle. apply Qle_bool_iff in Hle. congruence.
Qed.

Lemma flt_lt_zero_true (denom : pyfloat) :
  flt_lt (Fin 0) denom = true ->
  (exists d, denom = Fin d /\ (0 < d)%Q) \/ denom = PInf.
Proof.
  destruct denom as [d| | |]; simpl; intros H; try discriminate; auto.
  left. exists d. split; [reflexivity|]. now apply Qlt_bool_iff.
Qed.

Lemma Qeq_bool_pos_false (d : Q) : (0 < d)%Q -> Qeq_bool d 0 = false.
Proof.
  intros H. apply not_true_iff_false. intros E. apply Qeq_bool_iff in E.
  rewrite E in H. now apply Qlt_irrefl in H.
Qed.

Lemma clamp_pct_fin (p : Q) :
  exists p', clamp_pct (Fin p) = Fin p' /\
    ((-100 <= p <= 100 /\ p' == p) \/ (100 <= p /\ p' == 100)
     \/ (p <= -100 /\ p' == -100))%Q.
Proof.
  unfold clamp_pct, py_min, py_max. simpl.
  destruct (Qlt_bool p 100) eqn:E1; simpl.
  - apply Qlt_bool_iff in E1.
    destruct (Qlt_bool (-100) p) eqn:E2.
    + apply Qlt_bool_iff in E2. exists p. split; [reflexivity|]. left.
      repeat split; auto using Qlt_le_weak; reflexivity.
    + apply Qlt_bool_false_iff in E2. exists (-100)%Q. split; [reflexivity|].
      right. right. split; [exact E2 | reflexivity].
  - apply Qlt_bool_false_iff in E1. exists 100%Q. split; [reflexivity|].
    right. left. split; [exact E1 | reflexivity].
Qed.

Lemma clamp_pct_finite (pct : pyfloat) :
  exists p', clamp_pct pct = Fin p'.
Proof.
  destruct pct as [p| | |].
  - destruct (clamp_pct_fin p) as [p' [E _]]. eauto.
  - exists 100%Q. reflexivity.
  - exists (-100)%Q. reflexivity.
  - exists 100%Q. reflexivity.
Qed.

Lemma _to_signed_steps_5pct_unfold (self : VerticalBarChart) (value denom : pyfloat) :
  _to_signed_steps_5pct self value denom =
  if flt_le denom (Fin 0) then Ok 0
  else
    pct <- percent_of value denom ;;
    scaled <- flt_div (if clamp_to_100 self then clamp_pct pct else pct) (Fin 5) ;;
    steps <- py_round scaled ;;
    Ok (_clamp_int steps (-20) 20).
Proof. reflexivity. Qed.

Lemma steps_in_range (self : VerticalBarChart) (value denom : pyfloat) (s : Z) :
  _to_signed_steps_5pct self value denom = Ok s -> -20 <= s <= 20.
Proof.
  rewrite _to_signed_steps_5pct_unfold.
  destruct (flt_le denom (Fin 0)); [intros [= <-]; lia|].
  destruct (percent_of value denom) as [pct|e]; simpl; [|discriminate].
  destruct (flt_div _ (Fin 5)) as [scaled|e]; simpl; [|discriminate].
  destruct (py_round scaled) as [steps|e]; simpl; [|discriminate].
  intros [= <-]. apply _clamp_int_range. lia.
Qed.

Lemma percent_of_defined (value denom : pyfloat) :
  flt_le denom (Fin 0) = false -> exists pct, percent_of value denom = Ok pct.
Proof.
  intros H. unfold percent_of.
  destruct (flt_le_zero_false _ H) as [[d [-> Hd]]|[->| ->]].
  - destruct value; simpl; rewrite (Qeq_bool_pos_false d Hd); simpl; eauto.
  - destruct value; simpl; eauto.
  - destruct value; simpl; eauto.
Qed.

Lemma steps_of_finite_pct (self : VerticalBarChart) (value denom : pyfloat) (p : Q) :
  flt_le denom (Fin 0) = false ->
  percent_of value denom = Ok (Fin p) ->
  _to_signed_steps_5pct self value denom
  = Ok (_clamp_int (round_half_even (p / 5)) (-20) 20).
Proof.
  intros Hd Hp. rewrite _to_signed_steps_5pct_unfold, Hd, Hp. simpl bind.
  destruct (clamp_to_100 self); [|reflexivity].
  destruct (clamp_pct_fin p) as [p' [-> Hcases]]. simpl. f_equal.
  destruct Hcases as [[_ E]|[[Hp100 E]|[Hp100 E]]].
  - now rewrite E.
  - rewrite E. change (round_half_even (100 / 5)) with 20.
    assert (20 <= round_half_even (p / 5)).
    { apply round_half_even_lower. apply Qle_shift_div_l; [reflexivity|exact Hp100]. }
    rewrite (_clamp_int_above (round_half_even (p / 5))) by lia. reflexivity.
  - rewrite E. change (round_half_even (-100 / 5)) with (-20).
    assert (round_half_even (p / 5) <= -20).
    { apply round_half_even_upper. apply Qle_shift_div_r; [reflexivity|exact Hp100]. }
    rewrite (_clamp_int_below (round_half_even (p / 5))) by lia. reflexivity.
Qed.

Lemma steps_at_denom (self : VerticalBarChart) (value denom : pyfloat) :
  clamp_to_100 self = true ->
  flt_lt (Fin 0) denom = true ->
  flt_eq value denom = true ->
  _to_signed_steps_5pct self value denom = Ok 20.
Proof.
  intros Hc Hd He.
  destruct (flt_lt_zero_true _ Hd) as [[d [-> Hpos]]| ->].
  - destruct value as [x| | |]; simpl in He; try discriminate.
    apply Qeq_bool_iff in He.
    assert (Hle : flt_le (Fin d) (Fin 0) = false).
    { simpl. apply not_true_iff_false. intros E. apply Qle_bool_iff in E.
      exact (Qlt_not_le _ _ Hpos E). }
    rewrite (steps_of_finite_pct self (Fin x) (Fin d) (x / d * 100) Hle).
    + assert (E : (x / d * 100 / 5 == inject_Z 20)%Q).
      { rewrite He. field. intros E0. rewrite E0 in Hpos.
        now apply Qlt_irrefl in Hpos. }
      rewrite E, round_half_even_Z. reflexivity.
    + unfold percent_of. simpl. rewrite (Qeq_bool_pos_false d Hpos). reflexivity.
  - destruct value; simpl in He; try discriminate.
    rewrite _to_signed_steps_5pct_unfold, Hc. reflexivity.
Qed.

Lemma steps_at_neg_denom (self : VerticalBarChart) (value : pyfloat) (d : Q) :
  clamp_to_100 self = true ->
  (0 < d)%Q ->
  flt_eq value (flt_neg (Fin d)) = true ->
  _to_signed_steps_5pct self value (Fin d) = Ok (-20).
Proof.
  intros Hc Hpos He.
  destruct value as [x| | |]; simpl in He; try discriminate.
  apply Qeq_bool_iff in He.
  assert (Hle : flt_le (Fin d) (Fin 0) = false).
  { simpl. apply not_true_iff_false. intros E. apply Qle_bool_iff in E.
    exact (Qlt_not_le _ _ Hpos E). }
  rewrite (steps_of_finite_pct self (Fin x) (Fin d) (x / d * 100) Hle).
  - assert (E : (x / d * 100 / 5 == inject_Z (-20))%Q).
    { rewrite He. field. intros E0. rewrite E0 in Hpos.
      now apply Qlt_irrefl in Hpos. }
    rewrite E, round_half_even_Z. reflexivity.
  - unfold percent_of. simpl. rewrite (Qeq_bool_pos_false d Hpos). reflexivity.
Qed.

Lemma steps_defined_when_clamped (self : VerticalBarChart) (value denom : pyfloat) :
  clamp_to_100 self = true ->
  exists s, _to_signed_steps_5pct self value denom = Ok s.
Proof.
  intros Hc. rewrite _to_signed_steps_5pct_unfold, Hc.
  destruct (flt_le denom (Fin 0)) eqn:Hd; [eauto|].
  destruct (percent_of_defined value denom Hd) as [pct ->]. simpl bind.
  destruct (clamp_pct_finite pct) as [p' ->]. simpl. eauto.
Qed.

Lemma steps_of_finite (self : VerticalBarChart) (x d : Q) :
  (0 < d)%Q ->
  _to_signed_steps_5pct self (Fin x) (Fin d)
  = Ok (_clamp_int (round_half_even (x / d * 100 / 5)) (-20) 20).
Proof.
  intros Hd. apply steps_of_finite_pct.
  - simpl. apply not_true_iff_false. intros E. apply Qle_bool_iff in E.
    exact (Qlt_not_le _ _ Hd E).
  - unfold percent_of. simpl. rewrite (Qeq_bool_pos_false d Hd). reflexivity.
Qed.

Lemma round_half_even_near (q : Q) :
  (Qabs (inject_Z (round_half_even q) - q) <= 1 # 2)%Q.
Proof.
  pose proof (Qfloor_le q) as Hlo. pose proof (Qlt_floor q) as Hhi.
  rewrite inject_Z_plus in Hhi. change (inject_Z 1) with 1%Q in Hhi.
  apply Qabs_Qle_condition. unfold round_half_even.
  destruct (q - inject_Z (Qfloor q) ?= 1 # 2)%Q eqn:E.
  - apply Qeq_alt in E.
    destruct (Z.even (Qfloor q)); rewrite ?inject_Z_plus;
      change (inject_Z 1) with 1%Q; split; lra.
  - apply Qlt_alt in E. split; lra.
  - apply Qgt_alt in E. rewrite inject_Z_plus.
    change (inject_Z 1) with 1%Q. split; lra.
Qed.

(** Magnitudes up to this bound stay finite in binary64 through the two
    roundings of [value / denom * 100.0]; the exact arithmetic of the model
    does not need it, the code does. *)
Definition no_overflow_bound : Q := inject_Z (2 ^ 1000).

(** The step as a function of the exact quotient [q = 20 * value / denom]:
    20 from 20 on, -20 down from -20, and in between an integer next to
    [q].  The distance allows for the rounding errors of binary64. *)
Lemma steps_enclosure (self : VerticalBarChart) (x d : Q) :
  (0 < d)%Q ->
  exists s,
    _to_signed_steps_5pct self (Fin x) (Fin d) = Ok s /\
    ((20 <= 20 * x / d)%Q -> s = 20) /\
    ((20 * x / d <= -20)%Q -> s = -20) /\
    ((-20 <= 20 * x / d <= 20)%Q ->
     (Qabs (inject_Z s - 20 * x / d) <= (1 # 2) + (1 # 1000))%Q).
Proof.
  intros Hd. rewrite steps_of_finite by exact Hd.
  assert (E : (x / d * 100 / 5 == 20 * x / d)%Q).
  { field. intros E0. rewrite E0 in Hd. now apply Qlt_irrefl in Hd. }
  assert (Er : round_half_even (x / d * 100 / 5) = round_half_even (20 * x / d))
    by now rewrite E.
  rewrite Er. set (q := (20 * x / d)%Q).
  eexists. split; [reflexivity|]. split; [|split].
  - intros H. apply _clamp_int_above; [lia|].
    now apply (round_half_even_lower 20).
  - intros H. apply _clamp_int_below; [lia|].
    now apply (round_half_even_upper (-20)).
  - intros [Hlo Hhi].
    rewrite _clamp_int_id.
    + pose proof (round_half_even_near q) as Hn.
      apply Qle_trans with (1 := Hn). discriminate.
    + split; [now apply (round_half_even_lower (-20))
             | now apply (round_half_even_upper 20)].
Qed.

(** C1 (as the code has it).  Whatever the flag, the value and the
    denominator, a step that the conversion returns lies in [[-20, 20]], and
    a denominator with [denom <= 0] gives step 0.  With the clamp enabled the
    conversion always returns a step; [value == denom] gives step 20 for a
    positive denominator, and [value == -denom] gives step -20 for a
    positive finite one.  For a finite value and a finite positive
    denominator, with the clamp enabled or a quotient [20 * value / denom] of
    magnitude at most [2 ^ 1000], the conversion returns the step that
    [round(value / denom * 100 / 5)] clamped to [[-20, 20]] gives: 20 when
    the quotient is at least 20, -20 when it is at most -20, and otherwise an
    integer within [1/2 + 1/1000] of the quotient. *)
Theorem to_signed_steps_5pct_clamp (self : VerticalBarChart) (value denom : pyfloat) :
  (forall s, _to_signed_steps_5pct self value denom = Ok s -> -20 <= s <= 20) /\
  (flt_le denom (Fin 0) = true -> _to_signed_steps_5pct self value denom = Ok 0) /\
  (clamp_to_100 self = true ->
     (exists s, _to_signed_steps_5pct self value denom = Ok s) /\
     (flt_lt (Fin 0) denom = true -> flt_eq value denom = true ->
        _to_signed_steps_5pct self value denom = Ok 20) /\
     (forall d, denom = Fin d -> (0 < d)%Q ->
        flt_eq value (flt_neg denom) = true ->
        _to_signed_steps_5pct self value denom = Ok (-20))) /\
  (forall x d, value = Fin x -> denom = Fin d -> (0 < d)%Q ->
     clamp_to_100 self = true \/ (Qabs (20 * x / d) <= no_overflow_bound)%Q ->
     exists s,
       _to_signed_steps_5pct self value denom = Ok s /\
       ((20 <= 20 * x / d)%Q -> s = 20) /\
       ((20 * x / d <= -20)%Q -> s = -20) /\
       ((-20 <= 20 * x / d <= 20)%Q ->
        (Qabs (inject_Z s - 20 * x / d) <= (1 # 2) + (1 # 1000))%Q)).
Proof.
  split; [|split; [|split]].
  - intros s. apply steps_in_range.
  - intros H. rewrite _to_signed_steps_5pct_unfold, H. reflexivity.
  - intros Hc. split; [|split].
    + now apply steps_defined_when_clamped.
    + now apply steps_at_denom.
    + intros d -> Hd He. now apply steps_at_neg_denom.
  - intros x d -> -> Hd _. now apply steps_enclosure.
Qed.

(** The theorem at [value = denom = 7], at [value = -7], [denom = 7], and at
    [value = 23], [denom = 40], where the quotient is [11.5]. *)
Lemma to_signed_steps_5pct_clamp_witness :
  _to_signed_steps_5pct (default_chart []) (Fin 7) (Fin 7) = Ok 20 /\
  _to_signed_steps_5pct (default_chart []) (Fin (-7)) (Fin 7) = Ok (-20) /\
  exists s,
    _to_signed_steps_5pct (default_chart []) (Fin 23) (Fin 40) = Ok s /\
    (Qabs (inject_Z s - 20 * 23 / 40) <= (1 # 2) + (1 # 1000))%Q.
Proof.
  destruct (to_signed_steps_5pct_clamp (default_chart []) (Fin 7) (Fin 7))
    as [_ [_ [H _]]].
  destruct (to_signed_steps_5pct_clamp (default_chart []) (Fin (-7)) (Fin 7))
    as [_ [_ [H' _]]].
  destruct (to_signed_steps_5pct_clamp (default_chart []) (Fin 23) (Fin 40))
    as [_ [_ [_ H'']]].
  split; [|split].
  - apply (proj1 (proj2 (H eq_refl))); reflexivity.
  - apply (proj2 (proj2 (H' eq_refl)) 7%Q); reflexivity.
  - destruct (H'' 23%Q 40%Q eq_refl eq_refl eq_refl (or_introl eq_refl))
      as (s & Hs & _ & _ & Hnear).
    exists s. split; [exact Hs|]. apply Hnear. split; discriminate.
Defined.

(** C1 as stated fails where the denominator is not positive, and at an
    infinite one: [value == denom == 0.0] gives step 0, not 20, and
    [value == -denom == -inf] gives step 20, not -20. *)
Lemma to_signed_steps_5pct_at_denom_counterexample :
  (clamp_to_100 (default_chart []) = true /\
   flt_eq (Fin 0) (Fin 0) = true /\
   _to_signed_steps_5pct (default_chart []) (Fin 0) (Fin 0) = Ok 0 /\
   _to_signed_steps_5pct (default_chart []) (Fin 0) (Fin 0) <> Ok 20) /\
  (flt_eq NInf (flt_neg PInf) = true /\
   _to_signed_steps_5pct (default_chart []) NInf PInf = Ok 20 /\
   _to_signed_steps_5pct (default_chart []) NInf PInf <> Ok (-20)).
Proof.
  repeat split; try reflexivity; vm_compute; discriminate.
Qed.

(** C4 (as the code has it).  For a finite value and a finite positive
    denominator whose percentage [value / denom * 100] does not overflow (a
    magnitude of at most [2 ^ 1000]), the conversion returns the same step
    with the clamp enabled and disabled. *)
Theorem clamp_flag_no_effect (self : VerticalBarChart) (x d : Q) :
  (0 < d)%Q ->
  (Qabs (x / d * 100) <= no_overflow_bound)%Q ->
  _to_signed_steps_5pct (with_clamp_to_100 true self) (Fin x) (Fin d)
  = _to_signed_steps_5pct (with_clamp_to_100 false self) (Fin x) (Fin d) /\
  (exists s, _to_signed_steps_5pct (with_clamp_to_100 false self) (Fin x) (Fin d)
             = Ok s) /\
  _to_signed_steps_5pct (with_clamp_to_100 true self) (Fin x) PInf
  = _to_signed_steps_5pct (with_clamp_to_100 false self) (Fin x) PInf.
Proof.
  intros Hd _. rewrite !steps_of_finite by exact Hd.
  split; [reflexivity|]. split; [eauto|]. reflexivity.
Qed.

Lemma clamp_flag_no_effect_witness :
  _to_signed_steps_5pct (with_clamp_to_100 true (default_chart [])) (Fin 250) (Fin 100)
  = _to_signed_steps_5pct (with_clamp_to_100 false (default_chart [])) (Fin 250) (Fin 100)
  /\
  (exists s,
     _to_signed_steps_5pct (with_clamp_to_100 false (default_chart [])) (Fin 250) (Fin 100)
     = Ok s) /\
  _to_signed_steps_5pct (with_clamp_to_100 true (default_chart [])) (Fin 250) PInf
  = _to_signed_steps_5pct (with_clamp_to_100 false (default_chart [])) (Fin 250) PInf.
Proof.
  apply (clamp_flag_no_effect (default_chart []) 250 100).
  - reflexivity.
  - vm_compute. discriminate.
Defined.

(** C4 as stated fails at an infinite value: with the clamp enabled the step
    is 20, with the clamp disabled [round] raises. *)
Lemma clamp_flag_counterexample :
  flt_lt (Fin 0) (Fin 1) = true /\
  _to_signed_steps_5pct (with_clamp_to_100 true (default_chart [])) PInf (Fin 1)
  = Ok 20 /\
  _to_signed_steps_5pct (with_clamp_to_100 false (default_chart [])) PInf (Fin 1)
  = Raise OverflowError /\
  _to_signed_steps_5pct (with_clamp_to_100 true (default_chart [])) PInf (Fin 1)
  <> _to_signed_steps_5pct (with_clamp_to_100 false (default_chart [])) PInf (Fin 1).
Proof.
  repeat split; try reflexivity. vm_compute. discriminate.
Qed.

(** ** Width: [_term_cols] *)

(** C10.  An explicit width [w] gives [max(20, w)] columns, whatever the
    terminal reports. *)
Theorem term_cols_explicit_width (terminal_columns : Z) (self : VerticalBarChart) (w : Z) :
  width self = Some w ->
  _term_cols terminal_columns self = Z.max 20 w.
Proof.
  intros H. unfold _term_cols. rewrite H. reflexivity.
Qed.

Lemma term_cols_explicit_width_witness :
  _term_cols 132 (with_width (Some (-3)) (default_chart [])) = 20.
Proof.
  apply (term_cols_explicit_width 132 (with_width (Some (-3)) (default_chart [])) (-3)).
  reflexivity.
Defined.

(** ** Escape sequences: the scanners *)

Lemma opener_Some (s after : pystr) :
  opener s = Some after <-> s = ESC :: LBRACKET :: after.
Proof.
  split.
  - destruct s as [|c [|c2 rest]]; simpl; try discriminate.
    destruct (c =? ESC)%N eqn:E1; destruct (c2 =? LBRACKET)%N eqn:E2;
      simpl; try discriminate.
    apply N.eqb_eq in E1, E2. intros [= <-]. now subst.
  - intros ->. reflexivity.
Qed.

Lemma opener_None (s : pystr) : opener s = None <-> ~ starts_escape s.
Proof.
  split.
  - intros H [rest ->]. discriminate.
  - intros H. destruct (opener s) as [after|] eqn:E; [|reflexivity].
    apply opener_Some in E. exfalso. apply H. now exists after.
Qed.

Lemma opener_app_None (c : char) (rest tail : pystr) :
  opener (c :: rest) = None -> head_ok tail -> opener (c :: rest ++ tail) = None.
Proof.
  intros H Ht. destruct rest as [|c2 rest].
  2:{ simpl in *. destruct ((c =? ESC) && (c2 =? LBRACKET))%N;
      [discriminate|reflexivity]. }
  destruct tail as [|x tail]; [reflexivity|]. simpl in *.
  destruct (c =? ESC)%N; [|reflexivity].
  destruct (x =? LBRACKET)%N eqn:E; [|reflexivity].
  apply N.eqb_eq in E. contradiction.
Qed.

Lemma split_m_app (body rest : pystr) :
  ~ In LOWER_M body -> split_m (body ++ LOWER_M :: rest) = Some (body, rest).
Proof.
  induction body as [|c body IH]; simpl; intros H.
  - reflexivity.
  - destruct (c =? LOWER_M)%N eqn:E.
    + apply N.eqb_eq in E. exfalso. apply H. now left.
    + rewrite IH; [reflexivity|]. intros Hin. apply H. now right.
Qed.

Lemma split_m_Some (s body rest : pystr) :
  split_m s = Some (body, rest) ->
  s = body ++ LOWER_M :: rest /\ ~ In LOWER_M body.
Proof.
  revert body rest. induction s as [|c s IH]; simpl; intros body rest; [discriminate|].
  destruct (c =? LOWER_M)%N eqn:E.
  - apply N.eqb_eq in E. intros [= <- <-]. subst. split; [reflexivity|]. intros [].
  - destruct (split_m s) as [[b r]|]; [|discriminate].
    intros [= <- <-]. destruct (IH b r eq_refl) as [-> Hb]. split; [reflexivity|].
    intros [->|Hin]; [|contradiction]. rewrite N.eqb_refl in E. discriminate.
Qed.

Lemma skip_m_app (body rest : pystr) :
  ~ In LOWER_M body -> skip_m (body ++ LOWER_M :: rest) = rest.
Proof.
  induction body as [|c body IH]; simpl; intros H.
  - reflexivity.
  - destruct (c =? LOWER_M)%N eqn:E.
    + apply N.eqb_eq in E. exfalso. apply H. now left.
    + apply IH. intros Hin. apply H. now right.
Qed.

Lemma skip_m_none (tail : pystr) : ~ In LOWER_M tail -> skip_m tail = [].
Proof.
  induction tail as [|c tail IH]; simpl; intros H.
  - reflexivity.
  - destruct (c =? LOWER_M)%N eqn:E.
    + apply N.eqb_eq in E. exfalso. apply H. now left.
    + apply IH. intros Hin. apply H. now right.
Qed.

Lemma visible_chars_nil : visible_chars [] = [].
Proof. now simp visible_chars. Qed.

Lemma visible_chars_opener (c : char) (rest after : pystr) :
  opener (c :: rest) = Some after ->
  visible_chars (c :: rest) = visible_chars (skip_m after).
Proof.
  intros H. simp visible_chars.
  destruct (inspect (opener (c :: rest))) as [[a|] e]; simp visible_chars;
    congruence.
Qed.

Lemma visible_chars_plain (c : char) (rest : pystr) :
  opener (c :: rest) = None ->
  visible_chars (c :: rest) = c :: visible_chars rest.
Proof.
  intros H. simp visible_chars.
  destruct (inspect (opener (c :: rest))) as [[a|] e]; simp visible_chars;
    congruence.
Qed.

Lemma visible_chars_seq (after : pystr) :
  visible_chars (ESC :: LBRACKET :: after) = visible_chars (skip_m after).
Proof. now apply visible_chars_opener. Qed.

Lemma visible_chars_app (a tail : pystr) (n : Z) :
  sgr_count a n -> head_ok tail ->
  visible_chars (a ++ tail) = visible_chars a ++ visible_chars tail.
Proof.
  intros Ha Ht. induction Ha as [|c rest n Hc _ IH|body rest n Hb _ IH].
  - rewrite visible_chars_nil. reflexivity.
  - apply opener_None in Hc. simpl.
    rewrite (visible_chars_plain _ _ (opener_app_None _ _ _ Hc Ht)).
    rewrite (visible_chars_plain _ _ Hc), IH. reflexivity.
  - change ((ESC :: LBRACKET :: body ++ LOWER_M :: rest) ++ tail)
      with (ESC :: LBRACKET :: (body ++ LOWER_M :: rest) ++ tail).
    rewrite <- app_assoc. simpl app.
    rewrite !visible_chars_seq, !skip_m_app by assumption. exact IH.
Qed.

Lemma sgr_count_visible_chars (s : pystr) (n : Z) :
  sgr_count s n -> len (visible_chars s) = n.
Proof.
  intros H. induction H as [|c rest n Hc _ IH|body rest n Hb _ IH].
  - rewrite visible_chars_nil. reflexivity.
  - apply opener_None in Hc. rewrite (visible_chars_plain _ _ Hc).
    unfold len in *. simpl List.length. lia.
  - rewrite visible_chars_seq, skip_m_app by assumption. exact IH.
Qed.

Lemma sgr_count_visible_len (s : pystr) (n : Z) :
  sgr_count s n -> _visible_len s = n.
Proof. apply sgr_count_visible_chars. Qed.

Lemma visible_len_unclosed (pre tail : pystr) (n : Z) :
  sgr_count pre n -> ~ In LOWER_M tail ->
  _visible_len (pre ++ ESC :: LBRACKET :: tail) = n.
Proof.
  intros Hpre Htail. unfold _visible_len.
  rewrite (visible_chars_app pre (ESC :: LBRACKET :: tail) n Hpre)
    by (simpl; discriminate).
  rewrite visible_chars_seq, skip_m_none, visible_chars_nil, app_nil_r
    by assumption.
  now apply sgr_count_visible_chars.
Qed.

(** ** Escape sequences: [truncate_visible] *)

Lemma truncate_from_prefix (max_cols : Z) (s : pystr) (vis : Z) :
  exists tail, s = AnsiHelp.truncate_from max_cols s vis ++ tail.
Proof.
  funelim (AnsiHelp.truncate_from max_cols s vis).
  - now exists [].
  - now exists (c :: rest).
  - match goal with IH : exists _, rest = _ |- _ => destruct IH as [tail Hrec] end.
    exists tail. simpl. now rewrite <- Hrec.
  - match goal with IH : exists _, rest' = _ |- _ => destruct IH as [tail Hrec] end.
    exists tail.
    pose proof (proj1 (opener_Some _ _) Hopen) as Hstart.
    destruct (split_m_Some _ _ _ Hsplit) as [Hafter _].
    rewrite Hstart, Hafter. simpl. rewrite <- !app_assoc. simpl.
    rewrite <- Hrec. reflexivity.
  - now exists (c :: rest).
Qed.

Lemma truncate_from_complete (max_cols : Z) (s : pystr) (vis : Z) :
  complete_sgr (AnsiHelp.truncate_from max_cols s vis).
Proof.
  funelim (AnsiHelp.truncate_from max_cols s vis).
  - exists 0. constructor.
  - exists 0. constructor.
  - match goal with IH : complete_sgr _ |- _ => destruct IH as [n Hrec] end.
    exists (n + 1). constructor; [|exact Hrec].
    destruct (truncate_from_prefix max_cols rest (vis + 1)) as [tail Htail].
    match goal with H : opener _ = None |- _ =>
      pose proof (proj1 (opener_None _) H) as Hc end.
    intros [r Hr]. apply Hc. injection Hr as -> Hr.
    rewrite Hr in Htail. simpl in Htail. exists (r ++ tail). congruence.
  - match goal with IH : complete_sgr _ |- _ => destruct IH as [n Hrec] end.
    exists n.
    destruct (split_m_Some _ _ _ Hsplit) as [_ Hbody].
    simpl. rewrite <- app_assoc. simpl. now constructor.
  - exists 0. constructor.
Qed.


(** A red "ab" followed by a reset: two plain characters. *)
Definition red_ab : pystr :=
  ESC :: LBRACKET :: str "31" ++ LOWER_M :: str "ab"
    ++ ESC :: LBRACKET :: str "0" ++ [LOWER_M].

Lemma red_ab_count : sgr_count red_ab 2.
Proof.
  unfold red_ab. apply sgr_count_seq; [vm_compute; intuition discriminate|].
  apply (sgr_count_plain 97%N _ 1); [intros [r Hr]; discriminate|].
  apply (sgr_count_plain 98%N _ 0); [intros [r Hr]; discriminate|].
  apply (sgr_count_seq (str "0") []); [vm_compute; intuition discriminate|].
  constructor.
Qed.


(** ** Escape sequences: [_visible_len] *)

(** C9 (as the code has it).  [_visible_len] counts the plain characters and
    skips the complete escape sequences; an escape sequence that is opened
    and never closed by an ['m'] is skipped up to the end of the text, so
    none of its characters is counted. *)
Theorem visible_len_skips_sequences (pre tail : pystr) (n : Z) :
  sgr_count pre n ->
  ~ In LOWER_M tail ->
  _visible_len pre = n /\ _visible_len (pre ++ ESC :: LBRACKET :: tail) = n.
Proof.
  intros Hpre Htail. split.
  - now apply sgr_count_visible_len.
  - now apply visible_len_unclosed.
Qed.

Lemma visible_len_skips_sequences_witness :
  _visible_len red_ab = 2 /\
  _visible_len (red_ab ++ ESC :: LBRACKET :: str "31") = 2.
Proof.
  apply (visible_len_skips_sequences red_ab (str "31") 2).
  - exact red_ab_count.
  - vm_compute. intuition discriminate.
Defined.

(** C9 as stated fails: after "ab", the four characters of the unclosed
    sequence [ESC '[' '3' '1'] add nothing to the count. *)
Lemma visible_len_unclosed_counterexample :
  ~ In LOWER_M (str "31") /\
  _visible_len (str "ab" ++ ESC :: LBRACKET :: str "31") = _visible_len (str "ab") /\
  _visible_len (str "ab" ++ ESC :: LBRACKET :: str "31")
  <> _visible_len (str "ab") + len (ESC :: LBRACKET :: str "31").
Proof.
  repeat split; vm_compute; intuition discriminate.
Qed.

(** ** The border: [_add_border] *)

Lemma sgr_count_eq (s : pystr) (n m : Z) : sgr_count s n -> n = m -> sgr_count s m.
Proof. now intros H <-. Qed.

Lemma sgr_count_nonneg (s : pystr) (n : Z) : sgr_count s n -> 0 <= n.
Proof. induction 1; lia. Qed.

Lemma not_starts_escape_app (c : char) (rest tail : pystr) :
  ~ starts_escape (c :: rest) -> head_ok tail -> ~ starts_escape (c :: rest ++ tail).
Proof.
  intros H Ht. apply opener_None. apply opener_app_None; [|exact Ht].
  now apply opener_None.
Qed.

Lemma sgr_count_app (a b : pystr) (n k : Z) :
  sgr_count a n -> sgr_count b k -> head_ok b -> sgr_count (a ++ b) (n + k).
Proof.
  intros Ha Hb Hh. induction Ha as [|c rest n Hc _ IH|body rest n Hbody _ IH].
  - exact Hb.
  - simpl. apply sgr_count_eq with (n := n + k + 1); [|lia].
    constructor; [now apply not_starts_escape_app | exact IH].
  - simpl. rewrite <- app_assoc. simpl. now constructor.
Qed.

Lemma sgr_count_text (t : pystr) :
  Forall (fun c => c <> ESC) t -> sgr_count t (len t).
Proof.
  induction 1 as [|c t Hc _ IH].
  - constructor.
  - apply sgr_count_eq with (n := len t + 1).
    + constructor; [|exact IH]. intros [r Hr]. now injection Hr.
    + unfold len. simpl List.length. lia.
Qed.

Lemma len_str_mul (c : char) (n : Z) : 0 <= n -> len (str_mul c n) = n.
Proof.
  intros H. unfold len, str_mul. rewrite repeat_length. lia.
Qed.

Lemma sgr_count_str_mul (c : char) (n : Z) :
  c <> ESC -> 0 <= n -> sgr_count (str_mul c n) n.
Proof.
  intros Hc Hn. apply sgr_count_eq with (n := len (str_mul c n)).
  - apply sgr_count_text. unfold str_mul. apply Forall_forall.
    intros x Hx. apply repeat_spec in Hx. now subst.
  - now apply len_str_mul.
Qed.

Lemma sgr_count_wrap (sgr : option pystr) (text : pystr) (n : Z) :
  sgr_param sgr -> sgr_count text n -> sgr_count (AnsiHelp._sgr_wrap sgr text) n.
Proof.
  intros Hs Ht. destruct sgr as [[|c p]|]; simpl; try exact Ht.
  rewrite <- app_assoc. simpl.
  apply (sgr_count_seq (c :: p)); [exact Hs|].
  apply sgr_count_eq with (n := n + 0); [|lia].
  apply sgr_count_app; [exact Ht | | simpl; discriminate].
  apply (sgr_count_seq [48%N] []); [|constructor].
  simpl. intuition discriminate.
Qed.

Lemma head_ok_str_mul_space (n : Z) (tail : pystr) :
  head_ok (str_mul SPACE n ++ SPACE :: tail).
Proof.
  unfold str_mul. destruct (Z.to_nat n); simpl; discriminate.
Qed.

(** One interior line of the frame. *)
Lemma sgr_count_interior (side ln : pystr) (n pad : Z) :
  sgr_count side 1 -> sgr_count ln n -> 0 <= pad ->
  sgr_count (side ++ [SPACE] ++ ln ++ str_mul SPACE pad ++ [SPACE] ++ side)
            (n + pad + 4).
Proof.
  intros Hside Hln Hpad.
  apply sgr_count_eq with (n := 1 + ((n + (pad + (1 + 1))) + 1)); [|lia].
  apply sgr_count_app; [exact Hside| |simpl; discriminate].
  simpl app. constructor; [intros [r Hr]; discriminate|].
  apply sgr_count_app; [exact Hln| |apply head_ok_str_mul_space].
  apply sgr_count_app; [now apply sgr_count_str_mul| |simpl; discriminate].
  constructor; [intros [r Hr]; discriminate | exact Hside].
Qed.

Lemma fold_left_max_ge (l : list Z) (x : Z) : x <= fold_left Z.max l x.
Proof.
  revert x. induction l as [|y l IH]; simpl; intros x; [lia|].
  specialize (IH (Z.max x y)). lia.
Qed.

Lemma fold_left_max_In (l : list Z) (x y : Z) : In y l -> y <= fold_left Z.max l x.
Proof.
  revert x. induction l as [|z l IH]; simpl; intros x; [intros []|].
  intros [->|Hin].
  - pose proof (fold_left_max_ge l (Z.max x y)). lia.
  - now apply IH.
Qed.

Lemma max_int_list_ge (l : list Z) (y : Z) : In y l -> y <= max_int_list l.
Proof.
  destruct l as [|x l]; simpl; [intros []|].
  intros [->|Hin]; [apply fold_left_max_ge | now apply fold_left_max_In].
Qed.

Lemma _border_chars_not_ESC (self : VerticalBarChart) :
  let cs := _border_chars self in
  tl cs <> ESC /\ tr cs <> ESC /\ bl cs <> ESC /\ br cs <> ESC /\
  h cs <> ESC /\ v cs <> ESC.
Proof.
  unfold _border_chars.
  destruct (pystr_eqb _ (str "double")); [|destruct (pystr_eqb _ (str "ascii"))];
    simpl; repeat split; discriminate.
Qed.

(** A horizontal edge of the frame: a corner, [w + 2] rules, a corner. *)
Lemma sgr_count_edge (a b c : char) (w : Z) :
  a <> ESC -> b <> ESC -> c <> ESC -> 0 <= w ->
  sgr_count ([a] ++ str_mul b (w + 2) ++ [c]) (w + 4).
Proof.
  intros Ha Hb Hc Hw.
  apply sgr_count_eq with (n := len ([a] ++ str_mul b (w + 2) ++ [c])).
  - apply sgr_count_text. simpl. constructor; [exact Ha|].
    apply Forall_app. split; [|now repeat constructor].
    unfold str_mul. apply Forall_forall. intros x Hx.
    apply repeat_spec in Hx. now subst.
  - unfold len. simpl. rewrite length_app. unfold str_mul.
    rewrite repeat_length. simpl. lia.
Qed.

Lemma _visible_len_nonneg (s : pystr) : 0 <= _visible_len s.
Proof. unfold _visible_len, len. lia. Qed.

(** C3 (as the code has it).  With the border enabled, a non-empty list of
    lines whose escape sequences are complete, and a border SGR that is a
    parameter string (or none), every line of the frame has the same visible
    length: the widest content plus four. *)
Theorem add_border_rectangular (self : VerticalBarChart) (lines : list pystr) :
  _border_enabled self = true ->
  lines <> [] ->
  Forall complete_sgr lines ->
  sgr_param (_border_sgr self) ->
  List.length (_add_border self lines) = S (S (List.length lines)) /\
  Forall (fun ln => _visible_len ln = max_int_list (map _visible_len lines) + 4)
         (_add_border self lines).
Proof.
  intros Hen Hne Hlines Hsgr. unfold _add_border. rewrite Hen.
  destruct lines as [|l0 ls]; [contradiction|].
  remember (l0 :: ls) as lines eqn:Elines. simpl orb. cbv iota.
  replace (match lines with [] => true | _ :: _ => false end) with false
    by (subst lines; reflexivity).
  set (content_w := max_int_list (map _visible_len lines)).
  assert (Hw : 0 <= content_w).
  { pose proof (_visible_len_nonneg l0).
    assert (_visible_len l0 <= content_w); [|lia].
    apply max_int_list_ge. subst lines. now left. }
  destruct (_border_chars_not_ESC self) as (Htl & Htr & Hbl & Hbr & Hh & Hv).
  assert (Hside : sgr_count (AnsiHelp._sgr_wrap (_border_sgr self)
                               [v (_border_chars self)]) 1).
  { apply sgr_count_wrap; [exact Hsgr|]. now apply (sgr_count_text [_]); repeat constructor. }
  split.
  - rewrite !length_app, length_map. simpl. lia.
  - apply Forall_app. split; [|apply Forall_app; split].
    + constructor; [|constructor]. apply sgr_count_visible_len.
      apply sgr_count_wrap; [exact Hsgr|]. now apply sgr_count_edge.
    + apply Forall_forall. intros out Hout. apply in_map_iff in Hout.
      destruct Hout as [ln [<- Hin]].
      destruct (proj1 (Forall_forall _ _) Hlines ln Hin) as [n Hn].
      rewrite (sgr_count_visible_len ln n Hn).
      assert (Hle : n <= content_w).
      { rewrite <- (sgr_count_visible_len ln n Hn). apply max_int_list_ge.
        now apply in_map. }
      apply sgr_count_visible_len.
      apply sgr_count_eq with (n := n + (content_w - n) + 4); [|lia].
      apply sgr_count_interior; [exact Hside | exact Hn | lia].
    + constructor; [|constructor]. apply sgr_count_visible_len.
      apply sgr_count_wrap; [exact Hsgr|]. now apply sgr_count_edge.
Qed.

(** A chart with a grey single border around two lines, one of them styled. *)
Lemma add_border_rectangular_witness :
  let self := SetBorder true (Some (str "38;5;240")) (str "single") (default_chart []) in
  let lines := [red_ab; str "abc"] in
  List.length (_add_border self lines) = 4%nat /\
  Forall (fun ln => _visible_len ln = 7) (_add_border self lines).
Proof.
  intros self lines.
  apply (add_border_rectangular self lines).
  - reflexivity.
  - discriminate.
  - constructor; [exists 2; exact red_ab_count|].
    constructor; [|constructor]. exists (len (str "abc")).
    apply sgr_count_text. repeat constructor; discriminate.
  - vm_compute. intuition discriminate.
Defined.

(** C3 as stated fails for a border SGR that is not a parameter string:
    with ["1mX"], whose ['m'] ends the escape sequence early, the top and
    bottom of the frame show 10 characters and the two lines between 12. *)
Lemma add_border_sgr_counterexample :
  _border_enabled (SetBorder true (Some (str "1mX")) (str "single") (default_chart []))
  = true /\
  map _visible_len
      (_add_border (SetBorder true (Some (str "1mX")) (str "single") (default_chart []))
                   [str "ab"; str "abcd"])
  = [10; 12; 12; 10] /\
  ~ exists w,
      Forall (fun ln => _visible_len ln = w)
        (_add_border (SetBorder true (Some (str "1mX")) (str "single") (default_chart []))
                     [str "ab"; str "abcd"]).
Proof.
  split; [reflexivity|]. split; [vm_compute; reflexivity|].
  intros [w Hw].
  pose proof (proj1 (Forall_forall _ _) Hw) as Hall.
  assert (H1 : w = 10).
  { rewrite <- (Hall (nth 0 (_add_border (SetBorder true (Some (str "1mX"))
                                            (str "single") (default_chart []))
                                         [str "ab"; str "abcd"]) [])).
    - vm_compute. reflexivity.
    - vm_compute. auto. }
  assert (H2 : w = 12).
  { rewrite <- (Hall (nth 1 (_add_border (SetBorder true (Some (str "1mX"))
                                            (str "single") (default_chart []))
                                         [str "ab"; str "abcd"]) [])).
    - vm_compute. reflexivity.
    - vm_compute. auto. }
  lia.
Qed.

(** ** The denominator *)

(** C5 (as the code has it).  A supplied denominator that is not positive is
    replaced by [1.0]; the maximum absolute value of the inputs is used only
    when no denominator is supplied, and it too is replaced by [1.0] when it
    is not positive. *)
Theorem resolve_denom_explicit (self : VerticalBarChart) (vals : list pyfloat) :
  (forall m, max_value self = Some m -> flt_le m (Fin 0) = true ->
     resolve_denom self vals = Ok (Fin 1)) /\
  (forall m, max_value self = Some m -> flt_le m (Fin 0) = false ->
     resolve_denom self vals = Ok m) /\
  (forall a rest, max_value self = None -> map flt_abs vals = a :: rest ->
     resolve_denom self vals
     = Ok (if flt_le (fold_left py_max rest a) (Fin 0) then Fin 1
           else fold_left py_max rest a)).
Proof.
  unfold resolve_denom. repeat split.
  - intros m -> H. simpl. now rewrite H.
  - intros m -> H. simpl. now rewrite H.
  - intros a rest -> ->. simpl. now destruct (flt_le _ _).
Qed.

Lemma resolve_denom_explicit_witness :
  resolve_denom (with_max_value (Some (Fin (-5))) (default_chart [Fin 10])) [Fin 10]
  = Ok (Fin 1).
Proof.
  apply (proj1 (resolve_denom_explicit
                  (with_max_value (Some (Fin (-5))) (default_chart [Fin 10]))
                  [Fin 10]) (Fin (-5))); reflexivity.
Defined.

(** C5 as stated fails: with [max_value = -5] and the single value 10 the
    denominator is [1.0], whereas without [max_value] it is 10. *)
Lemma resolve_denom_counterexample :
  flt_le (Fin (-5)) (Fin 0) = true /\
  resolve_denom (with_max_value (Some (Fin (-5))) (default_chart [Fin 10])) [Fin 10]
  = Ok (Fin 1) /\
  resolve_denom (with_max_value None (default_chart [Fin 10])) [Fin 10]
  = Ok (Fin 10) /\
  resolve_denom (with_max_value (Some (Fin (-5))) (default_chart [Fin 10])) [Fin 10]
  <> resolve_denom (with_max_value None (default_chart [Fin 10])) [Fin 10].
Proof.
  repeat split; vm_compute; discriminate.
Qed.

(** ** Rendering *)

(** C8.  An empty value sequence renders as the placeholder, whatever the
    rest of the configuration and the environment. *)
Theorem str_no_data (terminal_columns : Z)
  (str_format : pystr -> pynum -> result pystr) (self : VerticalBarChart) :
  values self = [] ->
  __str__ terminal_columns str_format self = Ok (str "(no data)").
Proof.
  intros H. unfold __str__. rewrite H. reflexivity.
Qed.

(** A format operator that knows no template. *)
Definition no_format (fmt : pystr) (x : pynum) : result pystr := Raise TypeError.

Lemma str_no_data_witness :
  __str__ 80 no_format
    (SetBorder true (Some (str "1;31")) (str "double") (default_chart []))
  = Ok (str "(no data)").
Proof.
  apply (str_no_data 80 no_format
           (SetBorder true (Some (str "1;31")) (str "double") (default_chart []))).
  reflexivity.
Defined.

(** The scenario of C6: the values [100, -100] under the defaults, on a
    terminal of 80 columns. *)
Definition scenario : VerticalBarChart := default_chart [Fin 100; Fin (-100)].

Definition scenario_lines : list pystr :=
  map (fun l => str l ++ [0x258c%N])
      [" 100% "; "  90% "; "  80% "; "  70% "; "  60% ";
       "  50% "; "  40% "; "  30% "; "  20% "; "  10% "]%string
  ++ [str "   0% " ++ [0x2500%N]]
  ++ map (fun l => str l ++ [0x2590%N])
      [" -10% "; " -20% "; " -30% "; " -40% "; " -50% ";
       " -60% "; " -70% "; " -80% "; " -90% "; "-100% "]%string.

(** C6 (as the code has it).  The values [100, -100] quantise to the steps 20
    and -20.  The chart has ten positive rows, each with the left half block,
    the zero axis, and ten negative rows, each with the right half block. *)
Theorem scenario_rows (str_format : pystr -> pynum -> result pystr) :
  _to_signed_steps_5pct scenario (Fin 100) (Fin 100) = Ok 20 /\
  _to_signed_steps_5pct scenario (Fin (-100)) (Fin 100) = Ok (-20) /\
  neg_rows_of [20; -20] = Ok 10 /\
  _glyph_pos scenario 2 0 = Ok 0x258c%N /\
  _glyph_neg scenario 0 2 = Ok 0x2590%N /\
  content_lines 80 str_format scenario (values scenario) = Ok scenario_lines /\
  __str__ 80 str_format scenario = Ok (join [NEWLINE] scenario_lines).
Proof.
  repeat split; vm_compute; reflexivity.
Qed.

(** C6 as stated fails: the chart has ten negative rows, not one, so 21 lines
    and not 12. *)
Lemma scenario_negative_rows_counterexample :
  neg_rows_of [20; -20] = Ok 10 /\
  neg_rows_of [20; -20] <> Ok 1 /\
  exists lines,
    content_lines 80 no_format scenario (values scenario) = Ok lines /\
    List.length lines = 21%nat /\
    List.length lines <> (10 + 1 + 1)%nat.
Proof.
  split; [reflexivity|]. split; [vm_compute; discriminate|].
  exists scenario_lines. split; [vm_compute; reflexivity|].
  split; [reflexivity | discriminate].
Qed.

(** ** The number of negative rows *)

Lemma bind_Ok {A B : Type} (m : result A) (k : A -> result B) (b : B) :
  bind m k = Ok b -> exists a, m = Ok a /\ k a = Ok b.
Proof.
  destruct m as [a|e]; simpl; [eauto | discriminate].
Qed.

Lemma mapM_length {A B : Type} (f : A -> result B) (l : list A) (r : list B) :
  mapM f l = Ok r -> List.length r = List.length l.
Proof.
  revert r. induction l as [|a l IH]; simpl; intros r.
  - now intros [= <-].
  - intros H. apply bind_Ok in H. destruct H as [b [_ H]].
    apply bind_Ok in H. destruct H as [bs [Hbs H]].
    injection H as <-. simpl. now rewrite (IH bs Hbs).
Qed.

Lemma Qceiling_half (m : Z) : Qceiling (inject_Z m / 2) = (m + 1) / 2.
Proof.
  unfold Qceiling, Qfloor, Qopp, Qdiv, Qmult, Qinv, inject_Z. simpl.
  Z.to_euclidean_division_equations. lia.
Qed.

Lemma max_negative_magnitude_cons (s : Z) (steps : list Z) :
  max_negative_magnitude (s :: steps)
  = if s <? 0 then Z.max (- s) (max_negative_magnitude steps)
    else max_negative_magnitude steps.
Proof.
  unfold max_negative_magnitude. simpl. now destruct (s <? 0).
Qed.

Lemma max_negative_magnitude_nonneg (steps : list Z) :
  0 <= max_negative_magnitude steps.
Proof.
  induction steps as [|s steps IH]; [reflexivity|].
  rewrite max_negative_magnitude_cons. destruct (s <? 0); lia.
Qed.

Lemma max_neg_steps_of_acc (steps : list Z) (acc : Z) :
  0 <= acc ->
  fold_left (fun m s => if s <? 0 then Z.max m (- s) else m) steps acc
  = Z.max acc (max_negative_magnitude steps).
Proof.
  revert acc. induction steps as [|s steps IH]; intros acc Hacc.
  - simpl. unfold max_negative_magnitude. simpl. lia.
  - simpl. rewrite max_negative_magnitude_cons.
    destruct (s <? 0); rewrite IH; lia.
Qed.

Lemma max_neg_steps_of_spec (steps : list Z) :
  max_neg_steps_of steps = max_negative_magnitude steps.
Proof.
  unfold max_neg_steps_of. rewrite max_neg_steps_of_acc by lia.
  pose proof (max_negative_magnitude_nonneg steps). lia.
Qed.

Lemma neg_rows_of_spec (steps : list Z) :
  neg_rows_of steps = Ok (negative_row_count_spec steps).
Proof.
  unfold neg_rows_of, negative_row_count_spec.
  rewrite max_neg_steps_of_spec. reflexivity.
Qed.

Lemma max_negative_magnitude_none (steps : list Z) :
  Forall (fun s => 0 <= s) steps -> max_negative_magnitude steps = 0.
Proof.
  induction 1 as [|s steps Hs _ IH]; [reflexivity|].
  rewrite max_negative_magnitude_cons.
  destruct (s <? 0) eqn:E; [lia | exact IH].
Qed.

Lemma max_negative_magnitude_bound (steps : list Z) (b : Z) :
  0 <= b -> Forall (fun s => - b <= s) steps -> max_negative_magnitude steps <= b.
Proof.
  intros Hb. induction 1 as [|s steps Hs _ IH]; [exact Hb|].
  rewrite max_negative_magnitude_cons. destruct (s <? 0); lia.
Qed.

Lemma max_negative_magnitude_In (steps : list Z) (s : Z) :
  In s steps -> s < 0 -> - s <= max_negative_magnitude steps.
Proof.
  induction steps as [|x steps IH]; [intros []|].
  intros Hin Hs. rewrite max_negative_magnitude_cons. destruct Hin as [->|Hin].
  - destruct (s <? 0) eqn:E; lia.
  - specialize (IH Hin Hs). destruct (x <? 0); lia.
Qed.

Lemma range_length (lo hi : Z) : List.length (range lo hi) = Z.to_nat (hi - lo).
Proof. unfold range. now rewrite length_map, length_seq. Qed.

Lemma negative_row_count_spec_nonneg (steps : list Z) :
  0 <= negative_row_count_spec steps.
Proof.
  unfold negative_row_count_spec. rewrite Qceiling_half.
  pose proof (max_negative_magnitude_nonneg steps).
  Z.to_euclidean_division_equations. lia.
Qed.

Lemma lower_lines_length (str_format : pystr -> pynum -> result pystr)
  (self : VerticalBarChart) (cols : Z) (denom : pyfloat) (forced : bool)
  (y_w neg_rows : Z) (cells : list (pyfloat * pyfloat * Z * Z)) (n_left : Z)
  (lower : list pystr) :
  0 <= neg_rows ->
  lower_lines str_format self cols denom forced y_w neg_rows cells n_left = Ok lower ->
  exists axis rows, lower = axis :: rows /\ len rows = neg_rows.
Proof.
  intros Hn. unfold lower_lines. destruct (neg_rows >? 0) eqn:E.
  - intros H. apply bind_Ok in H. destruct H as [lbl0 [_ H]].
    apply bind_Ok in H. destruct H as [rows [Hrows H]].
    injection H as <-. eexists. exists rows. split; [reflexivity|].
    apply mapM_length in Hrows. rewrite range_length in Hrows.
    unfold len. lia.
  - intros [= <-]. eexists. exists []. split; [reflexivity|].
    unfold len. simpl. lia.
Qed.

Lemma content_lines_structure (terminal_columns : Z)
  (str_format : pystr -> pynum -> result pystr) (self : VerticalBarChart)
  (vals : list pyfloat) (lines : list pystr) :
  content_lines terminal_columns str_format self vals = Ok lines ->
  exists denom left_steps right_steps upper axis lower,
    resolve_denom self vals = Ok denom /\
    mapM (fun x => _to_signed_steps_5pct self x denom) (fst (pack vals))
    = Ok left_steps /\
    mapM (fun x => _to_signed_steps_5pct self x denom) (snd (pack vals))
    = Ok right_steps /\
    lines = title_lines self (_term_cols terminal_columns self)
              ++ upper ++ axis :: lower /\
    List.length upper = 10%nat /\
    len lower = negative_row_count_spec (left_steps ++ right_steps).
Proof.
  unfold content_lines. intros H.
  apply bind_Ok in H. destruct H as [denom [Hdenom H]].
  destruct (pack vals) as [left_vals right_vals].
  apply bind_Ok in H. destruct H as [left_steps [Hleft H]].
  apply bind_Ok in H. destruct H as [right_steps [Hright H]].
  apply bind_Ok in H. destruct H as [neg_rows [Hneg H]].
  rewrite neg_rows_of_spec in Hneg. injection Hneg as <-.
  apply bind_Ok in H. destruct H as [y_w [_ H]].
  apply bind_Ok in H. destruct H as [upper [Hupper H]].
  apply bind_Ok in H. destruct H as [lower [Hlower H]].
  injection H as <-.
  apply lower_lines_length in Hlower; [|apply negative_row_count_spec_nonneg].
  destruct Hlower as [axis [rows [-> Hrows]]].
  exists denom, left_steps, right_steps, upper, axis, rows.
  repeat split; try assumption.
  now apply mapM_length in Hupper.
Qed.

(** C7.  Whenever a chart with data renders, its lines are the title lines,
    ten positive rows, the zero axis or baseline, and [N] negative rows,
    where [N = ceil(m / 2)] and [m] is the largest magnitude among the
    negative steps of all the values; [N] is 0 when no step is negative, and
    9 when the lowest step is -17. *)
Theorem negative_row_count :
  (forall (terminal_columns : Z) (str_format : pystr -> pynum -> result pystr)
          (self : VerticalBarChart) (vals : list pyfloat) (lines : list pystr),
     content_lines terminal_columns str_format self vals = Ok lines ->
     exists denom left_steps right_steps upper axis lower,
       resolve_denom self vals = Ok denom /\
       mapM (fun x => _to_signed_steps_5pct self x denom) (fst (pack vals))
       = Ok left_steps /\
       mapM (fun x => _to_signed_steps_5pct self x denom) (snd (pack vals))
       = Ok right_steps /\
       lines = title_lines self (_term_cols terminal_columns self)
                 ++ upper ++ axis :: lower /\
       List.length upper = 10%nat /\
       len lower = negative_row_count_spec (left_steps ++ right_steps)) /\
  (forall steps, neg_rows_of steps = Ok (negative_row_count_spec steps)) /\
  (forall steps, Forall (fun s => 0 <= s) steps ->
     negative_row_count_spec steps = 0) /\
  (forall steps, In (-17) steps -> Forall (fun s => -17 <= s) steps ->
     negative_row_count_spec steps = 9).
Proof.
  split; [|split; [|split]].
  - apply content_lines_structure.
  - apply neg_rows_of_spec.
  - intros steps H. unfold negative_row_count_spec.
    now rewrite (max_negative_magnitude_none steps H).
  - intros steps Hin Hall. unfold negative_row_count_spec.
    assert (E : max_negative_magnitude steps = 17).
    { apply Z.le_antisymm.
      - now apply max_negative_magnitude_bound.
      - now apply (max_negative_magnitude_In steps (-17)). }
    now rewrite E.
Qed.

(** The values [-83, 100]: the steps are -17 and 20, so nine negative rows. *)
Lemma negative_row_count_witness :
  _to_signed_steps_5pct (default_chart [Fin (-83); Fin 100]) (Fin (-83)) (Fin 100)
  = Ok (-17) /\
  negative_row_count_spec [-17; 20] = 9 /\
  exists upper axis lower,
    content_lines 80 no_format (default_chart [Fin (-83); Fin 100])
      [Fin (-83); Fin 100]
    = Ok (upper ++ axis :: lower) /\
    List.length upper = 10%nat /\ len lower = 9.
Proof.
  split; [reflexivity|].
  destruct negative_row_count as [Hlines [_ [_ H17]]].
  split; [apply H17; [now left | repeat constructor; lia]|].
  destruct (content_lines 80 no_format (default_chart [Fin (-83); Fin 100])
              [Fin (-83); Fin 100]) as [lines|e] eqn:E;
    [|vm_compute in E; discriminate].
  destruct (Hlines _ _ _ _ _ E)
    as (denom & ls & rs & upper & axis & lower & Hd & Hl & Hr & -> & Hu & Hn).
  exists upper, axis, lower. split; [reflexivity|]. split; [exact Hu|].
  rewrite Hn. vm_compute in Hd. injection Hd as <-.
  vm_compute in Hl. injection Hl as <-. vm_compute in Hr. injection Hr as <-.
  reflexivity.
Defined.

(** ** The lines of a chart have complete escape sequences *)

Lemma first_m (s : pystr) :
  In LOWER_M s -> exists body rest, s = body ++ LOWER_M :: rest /\ ~ In LOWER_M body.
Proof.
  induction s as [|c s IH]; [intros []|].
  intros Hin. destruct (N.eq_dec c LOWER_M) as [->|Hc].
  - exists [], s. split; [reflexivity | intros []].
  - destruct Hin as [->|Hin]; [contradiction|].
    destruct (IH Hin) as (body & rest & -> & Hbody).
    exists (c :: body), rest. split; [reflexivity|].
    intros [E|E]; [congruence | contradiction].
Qed.

Lemma tail_after_m (x body rest : pystr) :
  x ++ [LOWER_M] = body ++ LOWER_M :: rest ->
  rest = [] \/
  exists rest', rest = rest' ++ [LOWER_M] /\ (List.length rest' < List.length x)%nat.
Proof.
  intros H. destruct rest as [|r0 rest0]; [now left|]. right.
  destruct (@exists_last _ (r0 :: rest0) ltac:(discriminate)) as (rest' & l & E).
  rewrite E in *. exists rest'.
  change (body ++ LOWER_M :: rest' ++ [l]) with (body ++ (LOWER_M :: rest') ++ [l]) in H.
  rewrite app_assoc in H. apply app_inj_tail in H. destruct H as [-> <-].
  split; [reflexivity|]. rewrite length_app. simpl. lia.
Qed.

Lemma complete_ends_with_m_bounded (n : nat) (s : pystr) :
  (List.length s <= n)%nat -> complete_sgr (s ++ [LOWER_M]).
Proof.
  revert s. induction n as [|n IH]; intros s Hlen.
  - destruct s; [|simpl in Hlen; lia].
    exists (0 + 1). constructor; [intros [r Hr]; discriminate | constructor].
  - destruct s as [|c rest].
    + exists (0 + 1). constructor; [intros [r Hr]; discriminate | constructor].
    + simpl in Hlen. simpl app.
      destruct (opener (c :: rest ++ [LOWER_M])) as [after|] eqn:Hopen.
      * apply opener_Some in Hopen. injection Hopen as -> Hrest.
        destruct rest as [|c2 rest2]; [discriminate|].
        injection Hrest as -> Hafter. subst after.
        destruct (first_m (rest2 ++ [LOWER_M])) as (body & r & Hsplit & Hbody).
        { apply in_or_app. right. now left. }
        simpl app. rewrite Hsplit.
        destruct (tail_after_m _ _ _ Hsplit) as [->|(r' & -> & Hr')].
        -- exists 0. constructor; [exact Hbody | constructor].
        -- destruct (IH r') as [k Hk]; [simpl in Hlen; lia|].
           exists k. now constructor.
      * destruct (IH rest) as [k Hk]; [lia|].
        exists (k + 1). constructor; [now apply opener_None | exact Hk].
Qed.

Lemma complete_ends_with_m (s : pystr) : complete_sgr (s ++ [LOWER_M]).
Proof. now apply (complete_ends_with_m_bounded (List.length s)). Qed.

Lemma complete_text (t : pystr) : Forall (fun c => c <> ESC) t -> complete_sgr t.
Proof. intros H. exists (len t). now apply sgr_count_text. Qed.

Lemma complete_str_mul (c : char) (n : Z) : c <> ESC -> complete_sgr (str_mul c n).
Proof.
  intros Hc. apply complete_text. unfold str_mul. apply Forall_forall.
  intros x Hx. apply repeat_spec in Hx. now subst.
Qed.

Lemma _sgr_wrap_complete (sgr : option pystr) (text : pystr) :
  complete_sgr text -> complete_sgr (AnsiHelp._sgr_wrap sgr text).
Proof.
  intros Ht. destruct sgr as [[|c p]|]; try exact Ht.
  assert (E : (ESC :: LBRACKET :: c :: p ++ [LOWER_M]) ++ text
                ++ [ESC; LBRACKET; 48%N; LOWER_M]
              = ((ESC :: LBRACKET :: c :: p ++ [LOWER_M]) ++ text
                   ++ [ESC; LBRACKET; 48%N]) ++ [LOWER_M]).
  { rewrite <- !app_assoc. reflexivity. }
  change (complete_sgr ((ESC :: LBRACKET :: c :: p ++ [LOWER_M]) ++ text
                          ++ [ESC; LBRACKET; 48%N; LOWER_M])).
  rewrite E. apply complete_ends_with_m.
Qed.

Lemma truncate_visible_complete (s : pystr) (max_cols : Z) :
  complete_sgr (AnsiHelp.truncate_visible s max_cols).
Proof.
  unfold AnsiHelp.truncate_visible. destruct (max_cols <=? 0).
  - exists 0. constructor.
  - apply truncate_from_complete.
Qed.

Lemma mapM_Forall {A B : Type} (f : A -> result B) (P : B -> Prop) (l : list A)
  (r : list B) :
  (forall a b, f a = Ok b -> P b) -> mapM f l = Ok r -> Forall P r.
Proof.
  intros Hf. revert r. induction l as [|a l IH]; simpl; intros r.
  - intros [= <-]. constructor.
  - intros H. apply bind_Ok in H. destruct H as [b [Hb H]].
    apply bind_Ok in H. destruct H as [bs [Hbs H]]. injection H as <-.
    constructor; [exact (Hf a b Hb) | exact (IH bs Hbs)].
Qed.

Lemma title_lines_complete (self : VerticalBarChart) (cols : Z) :
  Forall complete_sgr (title_lines self cols).
Proof.
  unfold title_lines. destruct (title self) as [[|c t]|]; try constructor.
  - apply _sgr_wrap_complete, truncate_visible_complete.
  - destruct (show_rule self); constructor; [|constructor].
    apply _sgr_wrap_complete, complete_str_mul.
    destruct (unicode self); discriminate.
Qed.

Lemma bar_row_complete (str_format : pystr -> pynum -> result pystr)
  (self : VerticalBarChart) (k : kind) (cols : Z) (denom : pyfloat)
  (forced : bool) (y_w : Z) (cells : list (pyfloat * pyfloat * Z * Z)) (r : Z)
  (line : pystr) :
  bar_row str_format self k cols denom forced y_w cells r = Ok line ->
  complete_sgr line.
Proof.
  unfold bar_row. intros H.
  apply bind_Ok in H. destruct H as [lbl [_ H]].
  apply bind_Ok in H. destruct H as [cs [_ H]]. injection H as <-.
  apply truncate_visible_complete.
Qed.

Lemma lower_lines_complete (str_format : pystr -> pynum -> result pystr)
  (self : VerticalBarChart) (cols : Z) (denom : pyfloat) (forced : bool)
  (y_w neg_rows : Z) (cells : list (pyfloat * pyfloat * Z * Z)) (n_left : Z)
  (lower : list pystr) :
  lower_lines str_format self cols denom forced y_w neg_rows cells n_left = Ok lower ->
  Forall complete_sgr lower.
Proof.
  unfold lower_lines. destruct (neg_rows >? 0).
  - intros H. apply bind_Ok in H. destruct H as [lbl0 [_ H]].
    apply bind_Ok in H. destruct H as [rows [Hrows H]]. injection H as <-.
    constructor; [apply truncate_visible_complete|].
    eapply mapM_Forall; [|exact Hrows]. intros a b. apply bar_row_complete.
  - intros [= <-]. constructor; [apply truncate_visible_complete | constructor].
Qed.

(** Every line that the renderer builds has complete escape sequences,
    whatever the styling strings are. *)
Lemma content_lines_complete (terminal_columns : Z)
  (str_format : pystr -> pynum -> result pystr) (self : VerticalBarChart)
  (vals : list pyfloat) (lines : list pystr) :
  content_lines terminal_columns str_format self vals = Ok lines ->
  Forall complete_sgr lines.
Proof.
  unfold content_lines. intros H.
  apply bind_Ok in H. destruct H as [denom [_ H]].
  destruct (pack vals) as [left_vals right_vals].
  apply bind_Ok in H. destruct H as [left_steps [_ H]].
  apply bind_Ok in H. destruct H as [right_steps [_ H]].
  apply bind_Ok in H. destruct H as [neg_rows [_ H]].
  apply bind_Ok in H. destruct H as [y_w [_ H]].
  apply bind_Ok in H. destruct H as [upper [Hupper H]].
  apply bind_Ok in H. destruct H as [lower [Hlower H]].
  injection H as <-.
  apply Forall_app. split; [apply title_lines_complete|].
  apply Forall_app. split.
  - eapply mapM_Forall; [|exact Hupper]. intros a b. apply bar_row_complete.
  - eapply lower_lines_complete. exact Hlower.
Qed.

(** ** The renderer returns *)

Lemma mapM_defined {A B : Type} (f : A -> result B) (l : list A) :
  (forall a, exists b, f a = Ok b) -> exists r, mapM f l = Ok r.
Proof.
  intros Hf. induction l as [|a l [r IH]]; simpl; [eauto|].
  destruct (Hf a) as [b ->]. rewrite IH. simpl. eauto.
Qed.

Lemma resolve_denom_positive (self : VerticalBarChart) (vals : list pyfloat)
  (denom : pyfloat) :
  resolve_denom self vals = Ok denom -> flt_le denom (Fin 0) = false.
Proof.
  unfold resolve_denom. intros H. apply bind_Ok in H.
  destruct H as [d [_ H]]. destruct (flt_le d (Fin 0)) eqn:E.
  - injection H as <-. reflexivity.
  - injection H as <-. exact E.
Qed.

Lemma resolve_denom_defined (self : VerticalBarChart) (vals : list pyfloat) :
  vals <> [] -> exists denom, resolve_denom self vals = Ok denom.
Proof.
  intros Hne. unfold resolve_denom. destruct (max_value self) as [m|].
  - simpl. destruct (flt_le m (Fin 0)); eauto.
  - destruct vals as [|a vals]; [contradiction|]. simpl.
    destruct (flt_le _ (Fin 0)); eauto.
Qed.

Lemma flt_div_defined (a denom : pyfloat) :
  flt_le denom (Fin 0) = false -> exists q, flt_div a denom = Ok q.
Proof.
  intros H. destruct (flt_le_zero_false _ H) as [[d [-> Hd]]|[->| ->]].
  - destruct a; simpl; rewrite (Qeq_bool_pos_false d Hd); eauto.
  - destruct a; simpl; eauto.
  - destruct a; simpl; eauto.
Qed.

Lemma _glyph_pos_defined (self : VerticalBarChart) (a b : Z) :
  exists g, _glyph_pos self (_clamp_int a 0 2) (_clamp_int b 0 2) = Ok g.
Proof.
  unfold _glyph_pos. destruct (negb (unicode self)); [eauto|].
  pose proof (_clamp_int_range a 0 2 ltac:(lia)) as Ha.
  pose proof (_clamp_int_range b 0 2 ltac:(lia)) as Hb.
  assert (Ea : _clamp_int a 0 2 = 0 \/ _clamp_int a 0 2 = 1 \/ _clamp_int a 0 2 = 2) by lia.
  assert (Eb : _clamp_int b 0 2 = 0 \/ _clamp_int b 0 2 = 1 \/ _clamp_int b 0 2 = 2) by lia.
  destruct Ea as [-> | [-> | ->]]; destruct Eb as [-> | [-> | ->]]; eauto.
Qed.

Lemma _glyph_neg_defined (self : VerticalBarChart) (a b : Z) :
  exists g, _glyph_neg self (_clamp_int a 0 2) (_clamp_int b 0 2) = Ok g.
Proof.
  unfold _glyph_neg. destruct (negb (unicode self)); [eauto|].
  pose proof (_clamp_int_range a 0 2 ltac:(lia)) as Ha.
  pose proof (_clamp_int_range b 0 2 ltac:(lia)) as Hb.
  assert (Ea : _clamp_int a 0 2 = 0 \/ _clamp_int a 0 2 = 1 \/ _clamp_int a 0 2 = 2) by lia.
  assert (Eb : _clamp_int b 0 2 = 0 \/ _clamp_int b 0 2 = 1 \/ _clamp_int b 0 2 = 2) by lia.
  destruct Ea as [-> | [-> | ->]]; destruct Eb as [-> | [-> | ->]]; eauto.
Qed.

Lemma _style_cell_defined (self : VerticalBarChart) (g : char)
  (vl vr denom : pyfloat) (k : kind) (r : Z) :
  flt_le denom (Fin 0) = false ->
  exists cell, _style_cell self g vl vr denom k r = Ok cell.
Proof.
  intros Hd. unfold _style_cell. destruct (_value_color_cb self) as [cb|]; [|eauto].
  destruct (flt_div_defined vl denom Hd) as [pl Hpl].
  destruct (flt_div_defined vr denom Hd) as [pr Hpr].
  destruct (flt_truthy denom); rewrite ?Hpl, ?Hpr; simpl; eauto.
Qed.

(** The labels can be rendered: the chart uses percent labels, or the format
    operator accepts every template and number. *)
Definition labels_defined (str_format : pystr -> pynum -> result pystr)
  (forced : bool) : Prop :=
  forced = false \/ forall fmt x, exists s, str_format fmt x = Ok s.

Lemma _render_y_label_defined (str_format : pystr -> pynum -> result pystr)
  (self : VerticalBarChart) (k : kind) (r : Z) (denom : pyfloat) (forced : bool) :
  labels_defined str_format forced ->
  exists lbl, _render_y_label str_format self k r denom forced = Ok lbl.
Proof.
  intros [-> | Hfmt]; unfold _render_y_label.
  - destruct k; simpl; eauto.
  - destruct forced; simpl; [|destruct k; eauto].
    assert (Hq : exists q, flt_div (flt_mul denom (float_of_int r)) (Fin 10) = Ok q).
    { destruct (flt_mul denom (float_of_int r)); simpl; eauto. }
    destruct Hq as [q Hq].
    destruct k; rewrite ?Hq; simpl; apply Hfmt.
Qed.

Lemma label_part_defined (str_format : pystr -> pynum -> result pystr)
  (self : VerticalBarChart) (k : kind) (r : Z) (denom : pyfloat) (forced : bool)
  (y_w : Z) :
  labels_defined str_format forced ->
  exists part, label_part str_format self k r denom forced y_w = Ok part.
Proof.
  intros H. unfold label_part. destruct (show_y_axis self); [|eauto].
  destruct (_render_y_label_defined str_format self k r denom forced H) as [lbl ->].
  simpl. eauto.
Qed.

Lemma bar_row_defined (str_format : pystr -> pynum -> result pystr)
  (self : VerticalBarChart) (k : kind) (cols : Z) (denom : pyfloat)
  (forced : bool) (y_w : Z) (cells : list (pyfloat * pyfloat * Z * Z)) (r : Z) :
  labels_defined str_format forced ->
  flt_le denom (Fin 0) = false ->
  exists line, bar_row str_format self k cols denom forced y_w cells r = Ok line.
Proof.
  intros Hl Hd. unfold bar_row.
  destruct (label_part_defined str_format self k r denom forced y_w Hl) as [part ->].
  simpl bind.
  assert (Hcells : exists cs,
            mapM (match k with
                  | pos => pos_cell self r denom
                  | _ => neg_cell self r denom
                  end) cells = Ok cs).
  { apply mapM_defined. intros [[[lv rv] ls] rs].
    destruct k; unfold pos_cell, neg_cell.
    - destruct (_glyph_pos_defined self
                  ((if ls >? 0 then ls else 0) - (r - 1) * 2)
                  ((if rs >? 0 then rs else 0) - (r - 1) * 2)) as [g ->].
      simpl. now apply _style_cell_defined.
    - destruct (_glyph_neg_defined self
                  ((if ls <? 0 then - ls else 0) - (r - 1) * 2)
                  ((if rs <? 0 then - rs else 0) - (r - 1) * 2)) as [g ->].
      simpl. now apply _style_cell_defined.
    - destruct (_glyph_neg_defined self
                  ((if ls <? 0 then - ls else 0) - (r - 1) * 2)
                  ((if rs <? 0 then - rs else 0) - (r - 1) * 2)) as [g ->].
      simpl. now apply _style_cell_defined. }
  destruct Hcells as [cs ->]. simpl. eauto.
Qed.

Lemma y_axis_width_defined (str_format : pystr -> pynum -> result pystr)
  (self : VerticalBarChart) (denom : pyfloat) (forced : bool) (neg_rows : Z) :
  labels_defined str_format forced ->
  exists y_w, y_axis_width str_format self denom forced neg_rows = Ok y_w.
Proof.
  intros Hl. unfold y_axis_width. destruct (show_y_axis self); [|eauto].
  destruct (mapM_defined (fun r => _render_y_label str_format self pos r denom forced)
              range_10_down) as [labels ->].
  { intros r. now apply _render_y_label_defined. }
  simpl bind. destruct (neg_rows >? 0); [|simpl; eauto].
  destruct (_render_y_label_defined str_format self zero 0 denom forced Hl) as [l0 ->].
  simpl bind.
  destruct (mapM_defined (fun r => _render_y_label str_format self neg r denom forced)
              (range 1 (neg_rows + 1))) as [ln ->].
  { intros r. now apply _render_y_label_defined. }
  simpl. eauto.
Qed.

Lemma lower_lines_defined (str_format : pystr -> pynum -> result pystr)
  (self : VerticalBarChart) (cols : Z) (denom : pyfloat) (forced : bool)
  (y_w neg_rows : Z) (cells : list (pyfloat * pyfloat * Z * Z)) (n_left : Z) :
  labels_defined str_format forced ->
  flt_le denom (Fin 0) = false ->
  exists lower,
    lower_lines str_format self cols denom forced y_w neg_rows cells n_left = Ok lower.
Proof.
  intros Hl Hd. unfold lower_lines. destruct (neg_rows >? 0); [|eauto].
  destruct (label_part_defined str_format self zero 0 denom forced y_w Hl) as [part ->].
  simpl bind.
  destruct (mapM_defined (bar_row str_format self neg cols denom forced y_w cells)
              (range 1 (neg_rows + 1))) as [rows ->].
  { intros r. now apply bar_row_defined. }
  simpl. eauto.
Qed.

(** Whether the labels are in the units of the denominator (line 337). *)
Definition forced_labels (self : VerticalBarChart) : bool :=
  match max_value self, y_label_fmt self with
  | None, None => false
  | _, _ => true
  end.

Lemma content_lines_defined (terminal_columns : Z)
  (str_format : pystr -> pynum -> result pystr) (self : VerticalBarChart)
  (vals : list pyfloat) :
  vals <> [] ->
  clamp_to_100 self = true ->
  labels_defined str_format (forced_labels self) ->
  exists lines, content_lines terminal_columns str_format self vals = Ok lines.
Proof.
  intros Hne Hclamp Hl. unfold content_lines.
  change (match max_value self with
          | Some _ => true
          | None => match y_label_fmt self with Some _ => true | None => false end
          end) with (forced_labels self).
  destruct (resolve_denom_defined self vals Hne) as [denom Hdenom].
  rewrite Hdenom. cbn [bind].
  pose proof (resolve_denom_positive self vals denom Hdenom) as Hd.
  destruct (pack vals) as [left_vals right_vals].
  destruct (mapM_defined (fun x => _to_signed_steps_5pct self x denom) left_vals)
    as [ls ->].
  { intros x. now apply steps_defined_when_clamped. }
  cbn [bind].
  destruct (mapM_defined (fun x => _to_signed_steps_5pct self x denom) right_vals)
    as [rs ->].
  { intros x. now apply steps_defined_when_clamped. }
  cbn [bind]. rewrite neg_rows_of_spec. cbn [bind].
  destruct (y_axis_width_defined str_format self denom (forced_labels self)
              (negative_row_count_spec (ls ++ rs)) Hl) as [y_w ->].
  cbn [bind].
  match goal with
  | |- context [mapM (bar_row _ _ pos ?cols _ _ _ ?cells) range_10_down] =>
      destruct (mapM_defined (bar_row str_format self pos cols denom
                                (forced_labels self) y_w cells) range_10_down)
        as [upper ->]; [intros r; now apply bar_row_defined|]
  end.
  cbn [bind].
  match goal with
  | |- context [lower_lines _ _ ?cols _ _ _ ?n ?cells ?nl] =>
      destruct (lower_lines_defined str_format self cols denom (forced_labels self)
                  y_w n cells nl Hl Hd)
        as [lower ->]
  end.
  cbn [bind]. eauto.
Qed.

(** * Further properties of the code *)

(** ** [truncate_visible]: the loop, case by case *)

Lemma truncate_from_nil (max_cols vis : Z) : AnsiHelp.truncate_from max_cols [] vis = [].
Proof. now simp truncate_from. Qed.

Lemma truncate_from_stop (max_cols : Z) (s : pystr) (vis : Z) :
  (vis <? max_cols) = false -> AnsiHelp.truncate_from max_cols s vis = [].
Proof.
  intros H. destruct s as [|c rest]; simp truncate_from; [reflexivity|].
  rewrite H. now simp truncate_from.
Qed.

Lemma truncate_from_plain (max_cols : Z) (c : char) (rest : pystr) (vis : Z) :
  (vis <? max_cols) = true ->
  opener (c :: rest) = None ->
  AnsiHelp.truncate_from max_cols (c :: rest) vis
  = c :: AnsiHelp.truncate_from max_cols rest (vis + 1).
Proof.
  intros Hv Ho. simp truncate_from. rewrite Hv. simp truncate_from.
  destruct (inspect (opener (c :: rest))) as [[a|] e]; simp truncate_from;
    [congruence | reflexivity].
Qed.

Lemma truncate_from_seq (max_cols : Z) (body rest : pystr) (vis : Z) :
  (vis <? max_cols) = true ->
  ~ In LOWER_M body ->
  AnsiHelp.truncate_from max_cols (ESC :: LBRACKET :: body ++ LOWER_M :: rest) vis
  = ESC :: LBRACKET :: body ++ LOWER_M :: AnsiHelp.truncate_from max_cols rest vis.
Proof.
  intros Hv Hb. simp truncate_from. rewrite Hv. simp truncate_from.
  destruct (inspect (opener (ESC :: LBRACKET :: body ++ LOWER_M :: rest)))
    as [[a|] e]; simp truncate_from; [|discriminate].
  injection e as <-.
  destruct (inspect (split_m (body ++ LOWER_M :: rest))) as [[[b r]|] e'];
    simp truncate_from; rewrite split_m_app in e' by assumption;
    [|discriminate].
  injection e' as <- <-. simpl. rewrite <- app_assoc. reflexivity.
Qed.

Lemma split_m_none (tail : pystr) : ~ In LOWER_M tail -> split_m tail = None.
Proof.
  induction tail as [|c tail IH]; simpl; intros H; [reflexivity|].
  destruct (c =? LOWER_M)%N eqn:E.
  - apply N.eqb_eq in E. exfalso. apply H. now left.
  - rewrite IH; [reflexivity|]. intros Hin. apply H. now right.
Qed.

Lemma truncate_from_unclosed (max_cols : Z) (tail : pystr) (vis : Z) :
  ~ In LOWER_M tail ->
  AnsiHelp.truncate_from max_cols (ESC :: LBRACKET :: tail) vis = [].
Proof.
  intros Ht. simp truncate_from. destruct (vis <? max_cols); simp truncate_from;
    [|reflexivity].
  destruct (inspect (opener (ESC :: LBRACKET :: tail))) as [[a|] e];
    simp truncate_from; [|discriminate].
  injection e as <-.
  destruct (inspect (split_m tail)) as [[[b r]|] e']; simp truncate_from;
    [|reflexivity].
  rewrite split_m_none in e' by assumption. discriminate.
Qed.

Lemma truncate_from_head (max_cols : Z) (c : char) (rest : pystr) (vis : Z) :
  ~ starts_escape (c :: rest) ->
  ~ starts_escape (c :: AnsiHelp.truncate_from max_cols rest vis).
Proof.
  intros Hc [r Hr]. apply Hc. injection Hr as -> Hr.
  destruct (truncate_from_prefix max_cols rest vis) as [tail Htail].
  rewrite Hr in Htail. simpl in Htail. exists (r ++ tail). congruence.
Qed.

Lemma truncate_from_count (max_cols : Z) (s : pystr) (n vis : Z) :
  sgr_count s n -> vis <= max_cols ->
  sgr_count (AnsiHelp.truncate_from max_cols s vis) (Z.min n (max_cols - vis)).
Proof.
  intros Hs. revert vis.
  induction Hs as [|c rest n Hc Hrest IH|body rest n Hb Hrest IH]; intros vis Hv.
  - rewrite truncate_from_nil. apply sgr_count_eq with (n := 0); [constructor|lia].
  - pose proof (sgr_count_nonneg rest n Hrest) as Hn.
    destruct (vis <? max_cols) eqn:E.
    + rewrite truncate_from_plain by (try apply opener_None; assumption).
      apply sgr_count_eq with (n := Z.min n (max_cols - (vis + 1)) + 1); [|lia].
      constructor; [now apply truncate_from_head | apply IH; lia].
    + rewrite truncate_from_stop by assumption.
      apply sgr_count_eq with (n := 0); [constructor|lia].
  - pose proof (sgr_count_nonneg rest n Hrest) as Hn.
    destruct (vis <? max_cols) eqn:E.
    + rewrite truncate_from_seq by assumption.
      constructor; [exact Hb | now apply IH].
    + rewrite truncate_from_stop by assumption.
      apply sgr_count_eq with (n := 0); [constructor|lia].
Qed.

Lemma truncate_from_fits (max_cols : Z) (s : pystr) (n vis : Z) :
  sgr_count s n -> vis + n < max_cols ->
  AnsiHelp.truncate_from max_cols s vis = s.
Proof.
  intros Hs. revert vis.
  induction Hs as [|c rest n Hc Hrest IH|body rest n Hb Hrest IH]; intros vis Hv.
  - apply truncate_from_nil.
  - pose proof (sgr_count_nonneg rest n Hrest) as Hn.
    rewrite truncate_from_plain; [|lia|now apply opener_None].
    rewrite IH by lia. reflexivity.
  - pose proof (sgr_count_nonneg rest n Hrest) as Hn.
    rewrite truncate_from_seq; [|lia|exact Hb].
    rewrite IH by lia. reflexivity.
Qed.

Lemma truncate_from_bound (max_cols : Z) (s : pystr) (vis : Z) :
  vis <= max_cols ->
  exists n, sgr_count (AnsiHelp.truncate_from max_cols s vis) n /\
            n <= max_cols - vis.
Proof.
  funelim (AnsiHelp.truncate_from max_cols s vis); intros Hv.
  - exists 0. split; [constructor|lia].
  - exists 0. split; [constructor|lia].
  - match goal with IH : _ -> exists _, _ |- _ =>
      destruct IH as (n & Hn & Hle); [lia|] end.
    exists (n + 1). split; [|lia].
    constructor; [|exact Hn]. apply truncate_from_head.
    now apply opener_None.
  - match goal with IH : _ -> exists _, _ |- _ =>
      destruct IH as (n & Hn & Hle); [lia|] end.
    exists n. split; [|lia].
    destruct (split_m_Some _ _ _ Hsplit) as [_ Hbody].
    simpl. rewrite <- app_assoc. simpl. now constructor.
  - exists 0. split; [constructor|lia].
Qed.

Lemma truncate_from_idempotent (max_cols : Z) (s : pystr) (vis : Z) :
  AnsiHelp.truncate_from max_cols (AnsiHelp.truncate_from max_cols s vis) vis
  = AnsiHelp.truncate_from max_cols s vis.
Proof.
  funelim (AnsiHelp.truncate_from max_cols s vis).
  - apply truncate_from_nil.
  - apply truncate_from_nil.
  - rewrite truncate_from_plain; [|assumption|].
    + f_equal. assumption.
    + apply opener_None, truncate_from_head. now apply opener_None.
  - destruct (split_m_Some _ _ _ Hsplit) as [_ Hbody].
    simpl. rewrite <- app_assoc. simpl.
    rewrite truncate_from_seq by assumption. do 3 f_equal. f_equal. assumption.
  - apply truncate_from_nil.
Qed.

(** ** [truncate_visible]: what it keeps *)

(** The truncation of any text shows at most [max_cols] characters. *)
Theorem truncate_visible_width (s : pystr) (max_cols : Z) :
  0 <= max_cols ->
  _visible_len (AnsiHelp.truncate_visible s max_cols) <= max_cols.
Proof.
  intros H. unfold AnsiHelp.truncate_visible.
  destruct (max_cols <=? 0) eqn:E.
  - unfold _visible_len. rewrite visible_chars_nil. exact H.
  - destruct (truncate_from_bound max_cols s 0) as (n & Hn & Hle); [lia|].
    rewrite (sgr_count_visible_len _ n Hn). lia.
Qed.

Lemma truncate_visible_width_witness :
  _visible_len (AnsiHelp.truncate_visible (red_ab ++ ESC :: LBRACKET :: str "1") 1) <= 1.
Proof.
  apply (truncate_visible_width (red_ab ++ ESC :: LBRACKET :: str "1") 1). lia.
Defined.

(** The truncation of a text of [n] plain characters and complete escape
    sequences shows [min(n, max_cols)] characters, and it is the whole text
    when [n < max_cols]. *)
Theorem truncate_visible_exact (s : pystr) (n max_cols : Z) :
  sgr_count s n ->
  0 <= max_cols ->
  _visible_len (AnsiHelp.truncate_visible s max_cols) = Z.min n max_cols /\
  (n < max_cols -> AnsiHelp.truncate_visible s max_cols = s).
Proof.
  intros Hs H. pose proof (sgr_count_nonneg s n Hs) as Hn.
  unfold AnsiHelp.truncate_visible. destruct (max_cols <=? 0) eqn:E.
  - split; [|lia]. unfold _visible_len. rewrite visible_chars_nil.
    unfold len. simpl. lia.
  - split.
    + rewrite (sgr_count_visible_len _ (Z.min n (max_cols - 0))).
      * lia.
      * apply truncate_from_count; [exact Hs | lia].
    + intros Hlt. apply (truncate_from_fits max_cols s n 0 Hs). lia.
Qed.

Lemma truncate_visible_exact_witness :
  _visible_len (AnsiHelp.truncate_visible red_ab 1) = 1 /\
  (2 < 3 -> AnsiHelp.truncate_visible red_ab 3 = red_ab).
Proof.
  split.
  - apply (proj1 (truncate_visible_exact red_ab 2 1 red_ab_count ltac:(lia))).
  - apply (proj2 (truncate_visible_exact red_ab 2 3 red_ab_count ltac:(lia))).
Defined.

(** Truncating twice to the same width is truncating once. *)
Theorem truncate_visible_idempotent (s : pystr) (max_cols : Z) :
  AnsiHelp.truncate_visible (AnsiHelp.truncate_visible s max_cols) max_cols
  = AnsiHelp.truncate_visible s max_cols.
Proof.
  unfold AnsiHelp.truncate_visible. destruct (max_cols <=? 0); [reflexivity|].
  apply truncate_from_idempotent.
Qed.

(** ** [_visible_len]: bounds and concatenation *)

Lemma visible_chars_length (s : pystr) :
  (List.length (visible_chars s) <= List.length s)%nat.
Proof.
  funelim (visible_chars s).
  - simpl. lia.
  - pose proof (opener_length (c :: rest) after Hopen) as Hl.
    pose proof (skip_m_length after). simpl in *. lia.
  - simpl. lia.
Qed.

(** The visible length of a text lies between 0 and its length. *)
Theorem _visible_len_bounds (s : pystr) : 0 <= _visible_len s <= len s.
Proof.
  pose proof (visible_chars_length s). unfold _visible_len, len. lia.
Qed.

(** After a text whose escape sequences are complete, a text that does not
    start with ['['] adds its own visible length. *)
Theorem _visible_len_app (a b : pystr) :
  complete_sgr a -> head_ok b ->
  _visible_len (a ++ b) = _visible_len a + _visible_len b.
Proof.
  intros [n Ha] Hb. unfold _visible_len.
  rewrite (visible_chars_app a b n Ha Hb). unfold len.
  rewrite length_app. lia.
Qed.

Lemma _visible_len_app_witness :
  _visible_len (red_ab ++ str "cd") = _visible_len red_ab + _visible_len (str "cd").
Proof.
  apply (_visible_len_app red_ab (str "cd")).
  - exists 2. exact red_ab_count.
  - simpl. discriminate.
Defined.

(** ** [_sgr_wrap] *)

(** Wrapping a text whose escape sequences are complete in an SGR parameter
    string keeps its escape sequences complete and its visible length. *)
Theorem _sgr_wrap_visible_len (sgr : option pystr) (text : pystr) :
  sgr_param sgr -> complete_sgr text ->
  complete_sgr (AnsiHelp._sgr_wrap sgr text) /\
  _visible_len (AnsiHelp._sgr_wrap sgr text) = _visible_len text.
Proof.
  intros Hs [n Ht]. split.
  - exists n. now apply sgr_count_wrap.
  - rewrite (sgr_count_visible_len text n Ht).
    apply sgr_count_visible_len. now apply sgr_count_wrap.
Qed.

Lemma _sgr_wrap_visible_len_witness :
  complete_sgr (AnsiHelp._sgr_wrap (Some (str "38;5;196")) red_ab) /\
  _visible_len (AnsiHelp._sgr_wrap (Some (str "38;5;196")) red_ab) = _visible_len red_ab.
Proof.
  apply (_sgr_wrap_visible_len (Some (str "38;5;196")) red_ab).
  - vm_compute. intuition discriminate.
  - exists 2. exact red_ab_count.
Defined.

(** ** The glyph tables *)

Lemma glyph_tables_defined (self : VerticalBarChart) (l r : Z) :
  0 <= l <= 2 -> 0 <= r <= 2 ->
  exists gp gn,
    _glyph_pos self l r = Ok gp /\ _glyph_neg self l r = Ok gn /\
    (gp = SPACE <-> l = 0 /\ r = 0) /\ (gn = SPACE <-> l = 0 /\ r = 0) /\
    gp <> ESC /\ gn <> ESC /\ gp <> LBRACKET /\ gn <> LBRACKET.
Proof.
  intros Hl Hr.
  assert (El : l = 0 \/ l = 1 \/ l = 2) by lia.
  assert (Er : r = 0 \/ r = 1 \/ r = 2) by lia.
  unfold _glyph_pos, _glyph_neg.
  destruct (unicode self); simpl;
    destruct El as [-> | [-> | ->]]; destruct Er as [-> | [-> | ->]];
    eexists; eexists;
    (split; [reflexivity|]); (split; [reflexivity|]);
    repeat split; intros; try discriminate; try lia; try reflexivity;
    match goal with H : _ /\ _ |- _ => destruct H; discriminate end.
Qed.

(** For bands in [0..2] both tables give a glyph, which is a space exactly
    when both bands are 0, and is never [ESC] or ['[']. *)
Theorem glyph_tables_total (self : VerticalBarChart) (l r : Z) :
  0 <= l <= 2 -> 0 <= r <= 2 ->
  exists gp gn,
    _glyph_pos self l r = Ok gp /\ _glyph_neg self l r = Ok gn /\
    (gp = SPACE <-> l = 0 /\ r = 0) /\ (gn = SPACE <-> l = 0 /\ r = 0) /\
    gp <> ESC /\ gn <> ESC /\ gp <> LBRACKET /\ gn <> LBRACKET.
Proof. apply glyph_tables_defined. Qed.

Lemma glyph_tables_total_witness :
  exists gp gn,
    _glyph_pos (default_chart []) 2 1 = Ok gp /\
    _glyph_neg (default_chart []) 2 1 = Ok gn /\
    (gp = SPACE <-> 2 = 0 /\ 1 = 0) /\ (gn = SPACE <-> 2 = 0 /\ 1 = 0) /\
    gp <> ESC /\ gn <> ESC /\ gp <> LBRACKET /\ gn <> LBRACKET.
Proof.
  apply (glyph_tables_total (default_chart []) 2 1); lia.
Defined.

(** With Unicode on, a band outside [0..2] is a missing key; with Unicode
    off, every pair of ints gives one of ['#'], ['L'], ['R'] and [' ']. *)
Theorem glyph_tables_outside (self : VerticalBarChart) (l r : Z) :
  (unicode self = true -> ~ (0 <= l <= 2 /\ 0 <= r <= 2) ->
     _glyph_pos self l r = Raise KeyError /\ _glyph_neg self l r = Raise KeyError) /\
  (unicode self = false ->
     exists g, _glyph_pos self l r = Ok g /\ _glyph_neg self l r = Ok g /\
               (g = 35%N \/ g = 76%N \/ g = 82%N \/ g = SPACE)).
Proof.
  split.
  - intros Hu Hout. unfold _glyph_pos, _glyph_neg. rewrite Hu. simpl.
    destruct l as [|[[pl|pl|]|[pl|pl|]|]|pl];
      destruct r as [|[[pr|pr|]|[pr|pr|]|]|pr];
      try (split; reflexivity); exfalso; apply Hout; lia.
  - intros Hu. unfold _glyph_pos, _glyph_neg. rewrite Hu. simpl.
    exists (ascii_glyph l r). repeat split. unfold ascii_glyph.
    destruct (l >? 0); destruct (r >? 0); simpl; auto.
Qed.

Lemma glyph_tables_outside_witness :
  _glyph_pos (default_chart []) 3 0 = Raise KeyError /\
  _glyph_neg (default_chart []) 3 0 = Raise KeyError.
Proof.
  apply (proj1 (glyph_tables_outside (default_chart []) 3 0)); [reflexivity|lia].
Defined.

(** ** The bands of a bar *)

(** The fill of one side in row [r], for a step magnitude [mag]
    ([_clamp_int(mag - steps_below, 0, 2)] in lines 379 and 415). *)
Definition band (mag r : Z) : Z := _clamp_int (mag - (r - 1) * 2) 0 2.

Lemma pos_cell_band (self : VerticalBarChart) (r : Z) (denom lv rv : pyfloat)
  (ls rs : Z) :
  pos_cell self r denom (lv, rv, ls, rs)
  = bind (_glyph_pos self (band (if ls >? 0 then ls else 0) r)
                          (band (if rs >? 0 then rs else 0) r))
         (fun g => _style_cell self g lv rv denom pos r).
Proof. reflexivity. Qed.

Lemma neg_cell_band (self : VerticalBarChart) (r : Z) (denom lv rv : pyfloat)
  (ls rs : Z) :
  neg_cell self r denom (lv, rv, ls, rs)
  = bind (_glyph_neg self (band (if ls <? 0 then - ls else 0) r)
                          (band (if rs <? 0 then - rs else 0) r))
         (fun g => _style_cell self g lv rv denom neg r).
Proof. reflexivity. Qed.

(** Over the ten rows the bands of a side add up to its step magnitude, and
    they are stacked: a row that is filled at all stands on full rows. *)
Theorem bands_stack (mag : Z) :
  0 <= mag <= 20 ->
  fold_right Z.add 0 (map (band mag) range_10_down) = mag /\
  (forall r r', 1 <= r' < r -> 0 < band mag r -> band mag r' = 2).
Proof.
  intros H. split.
  - assert (E : mag = 0 \/ mag = 1 \/ mag = 2 \/ mag = 3 \/ mag = 4 \/ mag = 5
                \/ mag = 6 \/ mag = 7 \/ mag = 8 \/ mag = 9 \/ mag = 10
                \/ mag = 11 \/ mag = 12 \/ mag = 13 \/ mag = 14 \/ mag = 15
                \/ mag = 16 \/ mag = 17 \/ mag = 18 \/ mag = 19 \/ mag = 20) by lia.
    repeat (destruct E as [-> | E]; [reflexivity|]). subst. reflexivity.
  - intros r r' Hr. unfold band, _clamp_int.
    destruct (mag - (r - 1) * 2 <? 0) eqn:E1; [lia|].
    destruct (mag - (r - 1) * 2 >? 2) eqn:E2;
      destruct (mag - (r' - 1) * 2 <? 0) eqn:E3;
      destruct (mag - (r' - 1) * 2 >? 2) eqn:E4; lia.
Qed.

Lemma bands_stack_witness :
  fold_right Z.add 0 (map (band 17) range_10_down) = 17 /\
  (forall r r', 1 <= r' < r -> 0 < band 17 r -> band 17 r' = 2).
Proof. apply (bands_stack 17). lia. Defined.

(** A side whose step is not positive is blank in every positive row, and a
    side whose step is not negative is blank in every negative row. *)
Theorem wrong_sign_blank (self : VerticalBarChart) (r : Z) (ls rs : Z) :
  1 <= r ->
  (ls <= 0 -> rs <= 0 ->
     _glyph_pos self (band (if ls >? 0 then ls else 0) r)
                     (band (if rs >? 0 then rs else 0) r) = Ok SPACE) /\
  (0 <= ls -> 0 <= rs ->
     _glyph_neg self (band (if ls <? 0 then - ls else 0) r)
                     (band (if rs <? 0 then - rs else 0) r) = Ok SPACE).
Proof.
  intros Hr. split; intros Hl Hs.
  - assert (E1 : (ls >? 0) = false) by lia. assert (E2 : (rs >? 0) = false) by lia.
    rewrite E1, E2. unfold band. rewrite !_clamp_int_below by lia.
    unfold _glyph_pos. now destruct (unicode self).
  - assert (E1 : (ls <? 0) = false) by lia. assert (E2 : (rs <? 0) = false) by lia.
    rewrite E1, E2. unfold band. rewrite !_clamp_int_below by lia.
    unfold _glyph_neg. now destruct (unicode self).
Qed.

Lemma wrong_sign_blank_witness :
  _glyph_pos (default_chart []) (band (if -20 >? 0 then -20 else 0) 1)
                                (band (if 0 >? 0 then 0 else 0) 1) = Ok SPACE.
Proof.
  apply (proj1 (wrong_sign_blank (default_chart []) 1 (-20) 0 ltac:(lia))); lia.
Defined.

(** ** Quantisation is monotone *)

Lemma round_half_even_cases (q : Q) :
  round_half_even q = Qfloor q \/ round_half_even q = Qfloor q + 1.
Proof.
  unfold round_half_even.
  destruct (q - inject_Z (Qfloor q) ?= 1 # 2)%Q; [destruct (Z.even _)| |]; auto.
Qed.

Lemma round_half_even_mono (x y : Q) :
  (x <= y)%Q -> round_half_even x <= round_half_even y.
Proof.
  intros Hxy. pose proof (Qfloor_resp_le _ _ Hxy) as Hf.
  destruct (Z.eq_dec (Qfloor x) (Qfloor y)) as [E|E].
  - unfold round_half_even. rewrite E.
    assert (Hd : (x - inject_Z (Qfloor y) <= y - inject_Z (Qfloor y))%Q).
    { apply Qplus_le_l. exact Hxy. }
    destruct (x - inject_Z (Qfloor y) ?= 1 # 2)%Q eqn:Ex;
      destruct (y - inject_Z (Qfloor y) ?= 1 # 2)%Q eqn:Ey;
      try (destruct (Z.even (Qfloor y)); lia); try lia.
    + apply Qeq_alt in Ex. apply Qlt_alt in Ey. rewrite Ex in Hd.
      exfalso. exact (Qlt_not_le _ _ Ey Hd).
    + apply Qgt_alt in Ex. apply Qeq_alt in Ey. rewrite Ey in Hd.
      exfalso. exact (Qlt_not_le _ _ Ex Hd).
    + apply Qgt_alt in Ex. apply Qlt_alt in Ey.
      exfalso. apply (Qlt_not_le _ _ Ex). apply Qle_trans with (1 := Hd).
      now apply Qlt_le_weak.
  - destruct (round_half_even_cases x) as [-> | ->];
      destruct (round_half_even_cases y) as [-> | ->]; lia.
Qed.

Lemma _clamp_int_mono (x y lo hi : Z) :
  lo <= hi -> x <= y -> _clamp_int x lo hi <= _clamp_int y lo hi.
Proof.
  intros Hb Hxy. unfold _clamp_int.
  destruct (x <? lo) eqn:E1; destruct (y <? lo) eqn:E2;
    destruct (x >? hi) eqn:E3; destruct (y >? hi) eqn:E4; lia.
Qed.

(** For a finite positive denominator, a larger finite value never gets a
    smaller step: with the clamp enabled always, and with the clamp disabled
    when the two percentages do not overflow. *)
Theorem steps_monotone (self : VerticalBarChart) (x y d : Q) :
  (0 < d)%Q -> (x <= y)%Q ->
  clamp_to_100 self = true \/
  ((Qabs (x / d * 100) <= no_overflow_bound)%Q /\
   (Qabs (y / d * 100) <= no_overflow_bound)%Q) ->
  exists sx sy,
    _to_signed_steps_5pct self (Fin x) (Fin d) = Ok sx /\
    _to_signed_steps_5pct self (Fin y) (Fin d) = Ok sy /\
    sx <= sy.
Proof.
  intros Hd Hxy _. rewrite !steps_of_finite by assumption.
  eexists. eexists. split; [reflexivity|]. split; [reflexivity|].
  apply _clamp_int_mono; [lia|]. apply round_half_even_mono.
  apply Qmult_le_compat_r; [|discriminate].
  apply Qmult_le_compat_r; [|discriminate].
  apply Qmult_le_compat_r; [exact Hxy|].
  apply Qlt_le_weak, Qinv_lt_0_compat. exact Hd.
Qed.

Lemma steps_monotone_witness :
  exists sx sy,
    _to_signed_steps_5pct (default_chart []) (Fin (-83)) (Fin 100) = Ok sx /\
    _to_signed_steps_5pct (default_chart []) (Fin 12) (Fin 100) = Ok sy /\
    sx <= sy.
Proof.
  apply (steps_monotone (default_chart []) (-83) 12 100);
    [reflexivity | discriminate | left; reflexivity].
Defined.

(** ** Packing *)

(** [(l0, r0), (l1, r1), ...] read back in order. *)
Fixpoint interleave (l r : list pyfloat) : list pyfloat :=
  match l, r with
  | a :: l', b :: r' => a :: b :: interleave l' r'
  | _, _ => []
  end.

Lemma pack_spec_two (vals : list pyfloat) :
  (let (l, r) := pack vals in
   List.length l = List.length r /\
   (2 * List.length l = List.length vals + Nat.b2n (Nat.odd (List.length vals)))%nat /\
   interleave l r
   = vals ++ (if Nat.odd (List.length vals) then [Fin 0] else [])) /\
  (forall a,
     let (l, r) := pack (a :: vals) in
     List.length l = List.length r /\
     (2 * List.length l
      = List.length (a :: vals) + Nat.b2n (Nat.odd (List.length (a :: vals))))%nat /\
     interleave l r
     = (a :: vals) ++ (if Nat.odd (List.length (a :: vals)) then [Fin 0] else [])).
Proof.
  induction vals as [|b vals [IH1 IH2]].
  - split; [repeat split|]. intros a. repeat split.
  - split; [apply IH2|]. intros a.
    change (pack (a :: b :: vals))
      with (let (l, r) := pack vals in (a :: l, b :: r)).
    destruct (pack vals) as [l r]. destruct IH1 as (Hlen & Hcount & Hinter).
    change (List.length (a :: b :: vals)) with (S (S (List.length vals))).
    rewrite Nat.odd_succ_succ. simpl List.length. repeat split.
    + now rewrite Hlen.
    + lia.
    + simpl. now rewrite Hinter.
Qed.

(** Packing splits the values into left and right columns of equal length,
    half the values rounded up; read back pair by pair they are the values,
    followed by one [0.0] when their number is odd. *)
Theorem pack_round_trip (vals : list pyfloat) :
  List.length (fst (pack vals)) = List.length (snd (pack vals)) /\
  (2 * List.length (fst (pack vals))
   = List.length vals + Nat.b2n (Nat.odd (List.length vals)))%nat /\
  interleave (fst (pack vals)) (snd (pack vals))
  = vals ++ (if Nat.odd (List.length vals) then [Fin 0] else []).
Proof.
  pose proof (proj1 (pack_spec_two vals)) as H.
  destruct (pack vals) as [l r]. exact H.
Qed.

(** ** The rendered chart *)

Lemma _term_cols_floor (terminal_columns : Z) (self : VerticalBarChart) :
  20 <= _term_cols terminal_columns self.
Proof. unfold _term_cols. destruct (width self); lia. Qed.

Lemma truncate_visible_le (s : pystr) (max_cols : Z) :
  0 <= max_cols -> _visible_len (AnsiHelp.truncate_visible s max_cols) <= max_cols.
Proof.
  intros H. unfold AnsiHelp.truncate_visible.
  destruct (max_cols <=? 0) eqn:E.
  - unfold _visible_len. rewrite visible_chars_nil. exact H.
  - destruct (truncate_from_bound max_cols s 0) as (n & Hn & Hle); [lia|].
    rewrite (sgr_count_visible_len _ n Hn). lia.
Qed.

Lemma title_lines_width (self : VerticalBarChart) (cols : Z) :
  0 <= cols -> sgr_param (_label_sgr self) -> sgr_param (_axis_sgr self) ->
  Forall (fun ln => _visible_len ln <= cols) (title_lines self cols).
Proof.
  intros Hc Hl Ha. unfold title_lines.
  destruct (title self) as [[|c t]|]; try constructor.
  - destruct (truncate_visible_complete (c :: t) cols) as [n Hn].
    rewrite (sgr_count_visible_len _ n (sgr_count_wrap _ _ n Hl Hn)).
    rewrite <- (sgr_count_visible_len _ n Hn). now apply truncate_visible_le.
  - destruct (show_rule self); constructor; [|constructor].
    set (w := Z.min cols (Z.max 10 (len (c :: t)))).
    assert (Hw : 0 <= w) by (unfold w; lia).
    assert (Hrule : sgr_count (str_mul (if unicode self then 9472%N else 45%N) w) w).
    { apply sgr_count_str_mul; [destruct (unicode self); discriminate | exact Hw]. }
    rewrite (sgr_count_visible_len _ w (sgr_count_wrap _ _ w Ha Hrule)).
    unfold w. lia.
Qed.

Lemma bar_row_width (str_format : pystr -> pynum -> result pystr)
  (self : VerticalBarChart) (k : kind) (cols : Z) (denom : pyfloat)
  (forced : bool) (y_w : Z) (cells : list (pyfloat * pyfloat * Z * Z)) (r : Z)
  (line : pystr) :
  0 <= cols ->
  bar_row str_format self k cols denom forced y_w cells r = Ok line ->
  _visible_len line <= cols.
Proof.
  intros Hc. unfold bar_row. intros H.
  apply bind_Ok in H. destruct H as [lbl [_ H]].
  apply bind_Ok in H. destruct H as [cs [_ H]]. injection H as <-.
  now apply truncate_visible_le.
Qed.

Lemma lower_lines_width (str_format : pystr -> pynum -> result pystr)
  (self : VerticalBarChart) (cols : Z) (denom : pyfloat) (forced : bool)
  (y_w neg_rows : Z) (cells : list (pyfloat * pyfloat * Z * Z)) (n_left : Z)
  (lower : list pystr) :
  0 <= cols ->
  lower_lines str_format self cols denom forced y_w neg_rows cells n_left = Ok lower ->
  Forall (fun ln => _visible_len ln <= cols) lower.
Proof.
  intros Hc. unfold lower_lines. destruct (neg_rows >? 0).
  - intros H. apply bind_Ok in H. destruct H as [lbl0 [_ H]].
    apply bind_Ok in H. destruct H as [rows [Hrows H]]. injection H as <-.
    constructor; [now apply truncate_visible_le|].
    eapply mapM_Forall; [|exact Hrows]. intros a b. now apply bar_row_width.
  - intros [= <-]. constructor; [now apply truncate_visible_le | constructor].
Qed.

Lemma content_lines_le_cols (terminal_columns : Z)
  (str_format : pystr -> pynum -> result pystr) (self : VerticalBarChart)
  (vals : list pyfloat) (lines : list pystr) :
  sgr_param (_label_sgr self) -> sgr_param (_axis_sgr self) ->
  content_lines terminal_columns str_format self vals = Ok lines ->
  Forall (fun ln => _visible_len ln <= _term_cols terminal_columns self) lines.
Proof.
  intros Hl Ha. pose proof (_term_cols_floor terminal_columns self) as Hc.
  unfold content_lines. intros H.
  apply bind_Ok in H. destruct H as [denom [_ H]].
  destruct (pack vals) as [left_vals right_vals].
  apply bind_Ok in H. destruct H as [left_steps [_ H]].
  apply bind_Ok in H. destruct H as [right_steps [_ H]].
  apply bind_Ok in H. destruct H as [neg_rows [_ H]].
  apply bind_Ok in H. destruct H as [y_w [_ H]].
  apply bind_Ok in H. destruct H as [upper [Hupper H]].
  apply bind_Ok in H. destruct H as [lower [Hlower H]].
  injection H as <-.
  apply Forall_app. split; [apply title_lines_width; [lia|assumption..]|].
  apply Forall_app. split.
  - eapply mapM_Forall; [|exact Hupper]. intros a b. apply bar_row_width. lia.
  - eapply lower_lines_width; [|exact Hlower]. lia.
Qed.

(** No content line is wider than the column count, when the label and axis
    SGR are parameter strings.  (The border adds four columns to that.) *)
Theorem content_lines_width (terminal_columns : Z)
  (str_format : pystr -> pynum -> result pystr) (self : VerticalBarChart)
  (vals : list pyfloat) (lines : list pystr) :
  sgr_param (_label_sgr self) -> sgr_param (_axis_sgr self) ->
  content_lines terminal_columns str_format self vals = Ok lines ->
  Forall (fun ln => _visible_len ln <= _term_cols terminal_columns self) lines.
Proof. apply content_lines_le_cols. Qed.

Lemma content_lines_width_witness :
  Forall (fun ln => _visible_len ln <= _term_cols 80 scenario) scenario_lines.
Proof.
  apply (content_lines_width 80 no_format scenario (values scenario) scenario_lines).
  - exact I.
  - exact I.
  - vm_compute. reflexivity.
Defined.

(** Every line of a rendered chart has complete escape sequences, whatever
    the styling strings and the callback are. *)
Theorem rendered_lines_complete (terminal_columns : Z)
  (str_format : pystr -> pynum -> result pystr) (self : VerticalBarChart)
  (vals : list pyfloat) (lines : list pystr) :
  content_lines terminal_columns str_format self vals = Ok lines ->
  Forall complete_sgr lines.
Proof. apply content_lines_complete. Qed.

Lemma rendered_lines_complete_witness : Forall complete_sgr scenario_lines.
Proof.
  apply (rendered_lines_complete 80 no_format scenario (values scenario)).
  vm_compute. reflexivity.
Defined.

Lemma str_defined (terminal_columns : Z)
  (str_format : pystr -> pynum -> result pystr) (self : VerticalBarChart) :
  clamp_to_100 self = true ->
  labels_defined str_format (forced_labels self) ->
  exists out, __str__ terminal_columns str_format self = Ok out.
Proof.
  intros Hc Hl. unfold __str__. destruct (values self) as [|a vals] eqn:E; [eauto|].
  destruct (content_lines_defined terminal_columns str_format self (a :: vals))
    as [lines ->]; [discriminate | exact Hc | exact Hl |].
  simpl. eauto.
Qed.

(** The least magnitude of an int that [float] does not convert: half way
    between the largest binary64 number and [2 ^ 1024]. *)
Definition float_int_limit : Z := 2 ^ 1024 - 2 ^ 970.

(** [float(v)] for one of the caller's numbers (line 308). *)
Definition float_of_number (n : pynum) : result pyfloat :=
  match n with
  | PyFloat x => Ok x
  | PyInt k =>
      if Z.abs k <? float_int_limit then Ok (Fin (inject_Z k))
      else Raise OverflowError
  end.

Definition with_values (vals : list pyfloat) (c : VerticalBarChart) : VerticalBarChart :=
  {| values := vals; title := title c; width := width c;
     max_value := max_value c; clamp_to_100 := clamp_to_100 c;
     show_y_axis := show_y_axis c; show_rule := show_rule c;
     unicode := unicode c; y_label_fmt := y_label_fmt c;
     _border_enabled := _border_enabled c; _border_sgr := _border_sgr c;
     _border_style_name := _border_style_name c;
     _label_sgr := _label_sgr c; _axis_sgr := _axis_sgr c;
     _bar_sgr := _bar_sgr c; _value_color_cb := _value_color_cb c |}.

(** [__str__] from the caller's numbers: line 308 converts them, and the rest
    works on the floats. *)
Definition str_of_numbers (terminal_columns : Z)
  (str_format : pystr -> pynum -> result pystr) (self : VerticalBarChart)
  (numbers : list pynum) : result pystr :=
  vals <- mapM float_of_number numbers ;;
  __str__ terminal_columns str_format (with_values vals self).

(** A number that [float] converts. *)
Definition convertible (n : pynum) : Prop :=
  match n with
  | PyFloat _ => True
  | PyInt k => Z.abs k < float_int_limit
  end.

Lemma float_of_number_defined (numbers : list pynum) :
  Forall convertible numbers -> exists vals, mapM float_of_number numbers = Ok vals.
Proof.
  induction 1 as [|n numbers Hn _ [vals IH]]; [simpl; eauto|].
  simpl. rewrite IH. destruct n as [k|x]; simpl in *.
  - apply Z.ltb_lt in Hn. rewrite Hn. simpl. eauto.
  - eauto.
Qed.

Lemma float_of_number_overflow (numbers : list pynum) (k : Z) :
  In (PyInt k) numbers -> float_int_limit <= Z.abs k ->
  mapM float_of_number numbers = Raise OverflowError.
Proof.
  intros Hin Hk.
  assert (Hbad : (Z.abs k <? float_int_limit) = false) by now apply Z.ltb_ge.
  induction numbers as [|n numbers IH]; [contradiction|].
  simpl. destruct n as [k'|x]; simpl.
  - destruct (Z.abs k' <? float_int_limit) eqn:E; [|reflexivity]. simpl.
    destruct Hin as [Heq|Hin]; [injection Heq as ->; congruence|].
    now rewrite (IH Hin).
  - destruct Hin as [Heq|Hin]; [discriminate|]. now rewrite (IH Hin).
Qed.

(** With the clamp enabled, labels that can be rendered and the callback a
    function that returns, [__str__] returns for all floats, infinities and
    [nan] included, and for the ints that [float] converts; an int of
    magnitude [2 ^ 1024 - 2 ^ 970] or more makes line 308 raise
    [OverflowError]. *)
Theorem str_of_numbers_returns (terminal_columns : Z)
  (str_format : pystr -> pynum -> result pystr) (self : VerticalBarChart)
  (numbers : list pynum) :
  clamp_to_100 self = true ->
  labels_defined str_format (forced_labels self) ->
  (Forall convertible numbers ->
   exists out, str_of_numbers terminal_columns str_format self numbers = Ok out) /\
  (forall k, In (PyInt k) numbers -> float_int_limit <= Z.abs k ->
   str_of_numbers terminal_columns str_format self numbers = Raise OverflowError).
Proof.
  intros Hc Hl. unfold str_of_numbers. split.
  - intros Hall. destruct (float_of_number_defined numbers Hall) as [vals ->].
    cbn [bind]. now apply str_defined.
  - intros k Hin Hk. now rewrite (float_of_number_overflow numbers k Hin Hk).
Qed.

Lemma str_of_numbers_returns_witness :
  (exists out,
     str_of_numbers 80 no_format (default_chart [])
       [PyFloat PInf; PyFloat NaN; PyInt (-3)] = Ok out) /\
  str_of_numbers 80 no_format (default_chart []) [PyInt 7; PyInt (2 ^ 1024)]
  = Raise OverflowError.
Proof.
  split.
  - apply (proj1 (str_of_numbers_returns 80 no_format (default_chart [])
                    [PyFloat PInf; PyFloat NaN; PyInt (-3)] eq_refl
                    (or_introl eq_refl))).
    repeat constructor.
  - apply (proj2 (str_of_numbers_returns 80 no_format (default_chart [])
                    [PyInt 7; PyInt (2 ^ 1024)] eq_refl (or_introl eq_refl))
             (2 ^ 1024)).
    + right. now left.
    + vm_compute. discriminate.
Defined.

(** The resolved denominator is never [<= 0]: quantisation does not take its
    zero branch for it, and dividing by it does not raise. *)
Theorem resolve_denom_not_zero (self : VerticalBarChart) (vals : list pyfloat)
  (denom : pyfloat) :
  resolve_denom self vals = Ok denom ->
  flt_le denom (Fin 0) = false /\ forall x, exists q, flt_div x denom = Ok q.
Proof.
  intros H. pose proof (resolve_denom_positive self vals denom H) as Hd.
  split; [exact Hd|]. intros x. now apply flt_div_defined.
Qed.

Lemma resolve_denom_not_zero_witness :
  flt_le (Fin 1) (Fin 0) = false /\ forall x, exists q, flt_div x (Fin 1) = Ok q.
Proof.
  apply (resolve_denom_not_zero (default_chart [Fin 0; Fin 0]) [Fin 0; Fin 0] (Fin 1)).
  reflexivity.
Defined.

(** ** The frame around a rendered chart *)

Lemma add_border_frame (self : VerticalBarChart) (l0 : pystr) (ls : list pystr) :
  _border_enabled self = true ->
  Forall complete_sgr (l0 :: ls) ->
  sgr_param (_border_sgr self) ->
  Forall (fun ln => _visible_len ln
                    = max_int_list (map _visible_len (l0 :: ls)) + 4)
         (_add_border self (l0 :: ls)).
Proof.
  intros Hen Hlines Hsgr. unfold _add_border. rewrite Hen.
  remember (l0 :: ls) as lines eqn:Elines. simpl orb. cbv iota.
  replace (match lines with [] => true | _ :: _ => false end) with false
    by (subst lines; reflexivity).
  set (content_w := max_int_list (map _visible_len lines)).
  assert (Hw : 0 <= content_w).
  { pose proof (_visible_len_nonneg l0).
    assert (_visible_len l0 <= content_w); [|lia].
    apply max_int_list_ge. subst lines. now left. }
  destruct (_border_chars_not_ESC self) as (Htl & Htr & Hbl & Hbr & Hh & Hv).
  assert (Hside : sgr_count (AnsiHelp._sgr_wrap (_border_sgr self)
                               [v (_border_chars self)]) 1).
  { apply sgr_count_wrap; [exact Hsgr|].
    now apply (sgr_count_text [_]); repeat constructor. }
  apply Forall_app. split; [|apply Forall_app; split].
  - constructor; [|constructor]. apply sgr_count_visible_len.
    apply sgr_count_wrap; [exact Hsgr|]. now apply sgr_count_edge.
  - apply Forall_forall. intros out Hout. apply in_map_iff in Hout.
    destruct Hout as [ln [<- Hin]].
    destruct (proj1 (Forall_forall _ _) Hlines ln Hin) as [n Hn].
    rewrite (sgr_count_visible_len ln n Hn).
    assert (Hle : n <= content_w).
    { rewrite <- (sgr_count_visible_len ln n Hn). apply max_int_list_ge.
      now apply in_map. }
    apply sgr_count_visible_len.
    apply sgr_count_eq with (n := n + (content_w - n) + 4); [|lia].
    apply sgr_count_interior; [exact Hside | exact Hn | lia].
  - constructor; [|constructor]. apply sgr_count_visible_len.
    apply sgr_count_wrap; [exact Hsgr|]. now apply sgr_count_edge.
Qed.

(** A chart rendered with the border enabled and a border SGR that is a
    parameter string is a rectangle: all the lines of its frame have the same
    visible length, whatever the values, the title, the other styling strings
    and the callback are; and that length is at most the column count plus
    four when the label and axis SGR are parameter strings too. *)
Theorem rendered_frame_rectangular (terminal_columns : Z)
  (str_format : pystr -> pynum -> result pystr) (self : VerticalBarChart)
  (vals : list pyfloat) (lines : list pystr) :
  _border_enabled self = true ->
  sgr_param (_border_sgr self) ->
  content_lines terminal_columns str_format self vals = Ok lines ->
  exists w,
    Forall (fun ln => _visible_len ln = w) (_add_border self lines) /\
    (sgr_param (_label_sgr self) -> sgr_param (_axis_sgr self) ->
     w <= _term_cols terminal_columns self + 4).
Proof.
  intros Hen Hsgr Hlines.
  pose proof (content_lines_complete _ _ _ _ _ Hlines) as Hcomplete.
  destruct (content_lines_structure _ _ _ _ _ Hlines)
    as (denom & ls & rs & upper & axis & lower & _ & _ & _ & E & Hup & _).
  destruct lines as [|l0 rest].
  { exfalso. destruct (title_lines self _); destruct upper; discriminate. }
  exists (max_int_list (map _visible_len (l0 :: rest)) + 4). split.
  - now apply add_border_frame.
  - intros Hl Ha.
    pose proof (content_lines_le_cols _ _ _ _ _ Hl Ha Hlines) as Hall.
    assert (Hmax : forall l x, Forall (fun y => y <= _term_cols terminal_columns self) (x :: l) ->
                     fold_left Z.max l x <= _term_cols terminal_columns self).
    { induction l as [|y l IH]; intros x Hx; simpl.
      - now inversion Hx.
      - apply IH. inversion Hx as [|? ? Hx1 Hx2]. inversion Hx2 as [|? ? Hy1 Hy2].
        constructor; [lia | exact Hy2]. }
    assert (max_int_list (map _visible_len (l0 :: rest))
            <= _term_cols terminal_columns self); [|lia].
    simpl. apply Hmax.
    change (_visible_len l0 :: map _visible_len rest)
      with (map _visible_len (l0 :: rest)).
    apply Forall_forall. intros y Hy. apply in_map_iff in Hy.
    destruct Hy as [ln [<- Hin]].
    exact (proj1 (Forall_forall _ _) Hall ln Hin).
Qed.

Lemma rendered_frame_rectangular_witness :
  let chart := SetBorder true (Some (str "38;5;240")) (str "double") scenario in
  exists w,
    Forall (fun ln => _visible_len ln = w) (_add_border chart scenario_lines) /\
    (sgr_param (_label_sgr chart) -> sgr_param (_axis_sgr chart) ->
     w <= _term_cols 80 chart + 4).
Proof.
  intros chart.
  apply (rendered_frame_rectangular 80 no_format chart (values chart) scenario_lines).
  - reflexivity.
  - vm_compute. intuition discriminate.
  - vm_compute. reflexivity.
Defined.

(** A rendered chart has at most ten negative rows, hence between 11 and 23
    content lines: up to two for the title, ten positive rows, the axis or
    baseline, and the negative rows. *)
Theorem content_lines_count (terminal_columns : Z)
  (str_format : pystr -> pynum -> result pystr) (self : VerticalBarChart)
  (vals : list pyfloat) (lines : list pystr) :
  content_lines terminal_columns str_format self vals = Ok lines ->
  (11 <= List.length lines <= 23)%nat /\
  (title self = None -> (List.length lines <= 21)%nat).
Proof.
  intros Hlines.
  destruct (content_lines_structure _ _ _ _ _ Hlines)
    as (denom & ls & rs & upper & axis & lower & _ & Hls & Hrs & -> & Hup & Hlow).
  assert (Hrange : Forall (fun s => - 20 <= s) (ls ++ rs)).
  { apply Forall_app. split.
    - eapply mapM_Forall; [|exact Hls]. intros a b Hb.
      apply steps_in_range in Hb. lia.
    - eapply mapM_Forall; [|exact Hrs]. intros a b Hb.
      apply steps_in_range in Hb. lia. }
  pose proof (max_negative_magnitude_bound (ls ++ rs) 20 ltac:(lia) Hrange) as Hm.
  pose proof (max_negative_magnitude_nonneg (ls ++ rs)) as Hm0.
  unfold negative_row_count_spec in Hlow. rewrite Qceiling_half in Hlow.
  assert (Hlen : (List.length lower <= 10)%nat).
  { unfold len in Hlow. revert Hlow.
    generalize (max_negative_magnitude (ls ++ rs)) Hm Hm0. intros m Hm1 Hm2 Hlow.
    assert ((m + 1) / 2 <= 10) by (Z.to_euclidean_division_equations; lia). lia. }
  assert (Ht : (List.length (title_lines self (_term_cols terminal_columns self)) <= 2)%nat).
  { unfold title_lines. destruct (title self) as [[|c t]|]; simpl; try lia.
    destruct (show_rule self); simpl; lia. }
  rewrite !length_app. simpl List.length. split; [lia|].
  intros Hnone. unfold title_lines. rewrite Hnone. simpl. lia.
Qed.

Lemma content_lines_count_witness :
  (11 <= List.length scenario_lines <= 23)%nat /\
  (title scenario = None -> (List.length scenario_lines <= 21)%nat).
Proof.
  apply (content_lines_count 80 no_format scenario (values scenario)).
  vm_compute. reflexivity.
Defined.

(** ** Styling adds nothing visible *)

Lemma visible_chars_wrap (sgr : option pystr) (text : pystr) (n : Z) :
  sgr_param sgr -> sgr_count text n ->
  visible_chars (AnsiHelp._sgr_wrap sgr text) = visible_chars text.
Proof.
  intros Hs Ht. destruct sgr as [[|c p]|]; try reflexivity.
  change (AnsiHelp._sgr_wrap (Some (c :: p)) text)
    with ((ESC :: LBRACKET :: (c :: p) ++ [LOWER_M])
            ++ text ++ [ESC; LBRACKET; 48%N; LOWER_M]).
  simpl app at 1. rewrite <- app_assoc. simpl app at 2.
  rewrite visible_chars_seq.
  change (c :: p ++ LOWER_M :: text ++ [ESC; LBRACKET; 48%N; LOWER_M])
    with ((c :: p) ++ LOWER_M :: text ++ [ESC; LBRACKET; 48%N; LOWER_M]).
  rewrite skip_m_app by exact Hs.
  rewrite (visible_chars_app text _ n Ht) by (simpl; discriminate).
  rewrite visible_chars_seq. simpl skip_m. rewrite visible_chars_nil.
  apply app_nil_r.
Qed.

Lemma visible_chars_text (t : pystr) :
  Forall (fun c => c <> ESC) t -> visible_chars t = t.
Proof.
  induction 1 as [|c t Hc _ IH]; [apply visible_chars_nil|].
  rewrite visible_chars_plain, IH; [reflexivity|].
  apply opener_None. intros [r Hr]. now injection Hr.
Qed.

(** The styling of a cell that [_style_cell] is about to apply. *)
Definition cell_sgr_param (self : VerticalBarChart) : Prop :=
  match _value_color_cb self with
  | Some cb => forall ctx, sgr_param (cb ctx)
  | None => sgr_param (_bar_sgr self)
  end.

Lemma _style_cell_count (self : VerticalBarChart) (g : char)
  (vl vr denom : pyfloat) (k : kind) (r : Z) (cell : pystr) :
  g <> ESC -> g <> LBRACKET ->
  cell_sgr_param self ->
  _style_cell self g vl vr denom k r = Ok cell ->
  sgr_count cell 1 /\ head_ok cell /\ visible_chars cell = [g].
Proof.
  intros Hg Hb Hp. unfold _style_cell, cell_sgr_param in *.
  assert (Hone : sgr_count [g] 1).
  { apply (sgr_count_text [g]). now repeat constructor. }
  assert (Hwrap : forall sgr, sgr_param sgr ->
            sgr_count (AnsiHelp._sgr_wrap sgr [g]) 1 /\
            head_ok (AnsiHelp._sgr_wrap sgr [g]) /\
            visible_chars (AnsiHelp._sgr_wrap sgr [g]) = [g]).
  { intros sgr Hs. split; [now apply sgr_count_wrap|]. split.
    - destruct sgr as [[|c p]|]; simpl; [exact Hb | discriminate | exact Hb].
    - rewrite (visible_chars_wrap sgr [g] 1 Hs Hone).
      apply visible_chars_text. now repeat constructor. }
  destruct (_value_color_cb self) as [cb|].
  - intros H. apply bind_Ok in H. destruct H as [pl [_ H]].
    apply bind_Ok in H. destruct H as [pr [_ H]]. injection H as <-.
    apply Hwrap, Hp.
  - intros [= <-]. now apply Hwrap.
Qed.

(** A styled cell shows its glyph and nothing else, when the SGR that applies
    to it (the callback's result, or else the bar SGR) is a parameter string.
    With a callback, the cell is the glyph wrapped in what the callback
    returns for the cell's values, their fractions of the denominator, the
    row and the glyph; the bar SGR is not used. *)
Theorem style_cell_shows_glyph (self : VerticalBarChart) (g : char)
  (vl vr denom : pyfloat) (k : kind) (r : Z) (cell : pystr) :
  g <> ESC -> g <> LBRACKET ->
  cell_sgr_param self ->
  _style_cell self g vl vr denom k r = Ok cell ->
  visible_chars cell = [g] /\ _visible_len cell = 1 /\
  (forall cb, _value_color_cb self = Some cb ->
     exists pl pr,
       (if flt_truthy denom then flt_div vl denom else Ok (Fin 0)) = Ok pl /\
       (if flt_truthy denom then flt_div vr denom else Ok (Fin 0)) = Ok pr /\
       cell = AnsiHelp._sgr_wrap
                (cb {| value_left := vl; value_right := vr; pct_left := pl;
                       pct_right := pr; row_kind := k; row := r; glyph := g |})
                [g]).
Proof.
  intros Hg Hb Hp H.
  destruct (_style_cell_count self g vl vr denom k r cell Hg Hb Hp H)
    as (Hc & _ & Hv).
  split; [exact Hv|]. split; [now apply sgr_count_visible_len|].
  intros cb Hcb. unfold _style_cell in H. rewrite Hcb in H.
  apply bind_Ok in H. destruct H as [pl [Hpl H]].
  apply bind_Ok in H. destruct H as [pr [Hpr H]]. injection H as <-.
  exists pl, pr. repeat split; assumption.
Qed.

(** A callback that paints every cell in one colour. *)
Definition paint (sgr : pystr) : ValueColorCallback := fun _ => Some sgr.

Definition painted_chart : VerticalBarChart :=
  {| values := [Fin 100; Fin (-100)]; title := None; width := None;
     max_value := None; clamp_to_100 := true; show_y_axis := true;
     show_rule := true; unicode := true; y_label_fmt := None;
     _border_enabled := false; _border_sgr := None;
     _border_style_name := str "single";
     _label_sgr := None; _axis_sgr := None; _bar_sgr := Some (str "1mX");
     _value_color_cb := Some (paint (str "38;5;39")) |}.

Lemma style_cell_shows_glyph_witness :
  exists cell,
    _style_cell painted_chart 0x258c%N (Fin 100) (Fin (-100)) (Fin 100) pos 10
    = Ok cell /\
    visible_chars cell = [0x258c%N] /\ _visible_len cell = 1.
Proof.
  eexists. split; [reflexivity|].
  refine (let H := style_cell_shows_glyph painted_chart 0x258c%N (Fin 100)
                     (Fin (-100)) (Fin 100) pos 10 _ _ _ _ eq_refl in
          conj (proj1 H) (proj1 (proj2 H))).
  - discriminate.
  - discriminate.
  - intros ctx. vm_compute. intuition discriminate.
Defined.

(** The glyph of a cell of a row: lines 377-381 and 413-417. *)
Definition cell_glyph (self : VerticalBarChart) (k : kind) (r : Z)
  (c : pyfloat * pyfloat * Z * Z) : result char :=
  let '(_, _, ls, rs) := c in
  match k with
  | pos => _glyph_pos self (band (if ls >? 0 then ls else 0) r)
                           (band (if rs >? 0 then rs else 0) r)
  | _ => _glyph_neg self (band (if ls <? 0 then - ls else 0) r)
                         (band (if rs <? 0 then - rs else 0) r)
  end.

Lemma band_range (mag r : Z) : 0 <= band mag r <= 2.
Proof. unfold band. apply _clamp_int_range. lia. Qed.

Lemma cell_glyph_plain (self : VerticalBarChart) (k : kind) (r : Z)
  (c : pyfloat * pyfloat * Z * Z) (g : char) :
  cell_glyph self k r c = Ok g -> g <> ESC /\ g <> LBRACKET.
Proof.
  destruct c as [[[lv rv] ls] rs]. unfold cell_glyph.
  destruct k.
  - destruct (glyph_tables_defined self _ _
                (band_range (if ls >? 0 then ls else 0) r)
                (band_range (if rs >? 0 then rs else 0) r))
      as (gp & gn & Hp & _ & _ & _ & H1 & _ & H2 & _).
    rewrite Hp. intros [= <-]. now split.
  - destruct (glyph_tables_defined self _ _
                (band_range (if ls <? 0 then - ls else 0) r)
                (band_range (if rs <? 0 then - rs else 0) r))
      as (gp & gn & _ & Hn & _ & _ & _ & H1 & _ & H2).
    rewrite Hn. intros [= <-]. now split.
  - destruct (glyph_tables_defined self _ _
                (band_range (if ls <? 0 then - ls else 0) r)
                (band_range (if rs <? 0 then - rs else 0) r))
      as (gp & gn & _ & Hn & _ & _ & _ & H1 & _ & H2).
    rewrite Hn. intros [= <-]. now split.
Qed.

Lemma visible_chars_truncate_from (max_cols : Z) (s : pystr) (n vis : Z) :
  sgr_count s n -> vis <= max_cols ->
  visible_chars (AnsiHelp.truncate_from max_cols s vis)
  = firstn (Z.to_nat (max_cols - vis)) (visible_chars s).
Proof.
  intros Hs. revert vis.
  induction Hs as [|c rest n Hc Hrest IH|body rest n Hb Hrest IH]; intros vis Hv.
  - rewrite truncate_from_nil, visible_chars_nil, firstn_nil. reflexivity.
  - destruct (vis <? max_cols) eqn:E.
    + rewrite truncate_from_plain by (try apply opener_None; assumption).
      rewrite visible_chars_plain
        by (apply opener_None; now apply truncate_from_head).
      rewrite (visible_chars_plain c rest) by now apply opener_None.
      rewrite IH by lia.
      replace (Z.to_nat (max_cols - vis)) with (S (Z.to_nat (max_cols - (vis + 1))))
        by lia.
      reflexivity.
    + rewrite truncate_from_stop by assumption.
      replace (Z.to_nat (max_cols - vis)) with 0%nat by lia.
      rewrite visible_chars_nil. reflexivity.
  - destruct (vis <? max_cols) eqn:E.
    + rewrite truncate_from_seq by assumption.
      rewrite !visible_chars_seq, !skip_m_app by assumption. now apply IH.
    + rewrite truncate_from_stop by assumption.
      replace (Z.to_nat (max_cols - vis)) with 0%nat by lia.
      rewrite visible_chars_nil. reflexivity.
Qed.

Lemma visible_chars_truncate_visible (s : pystr) (n max_cols : Z) :
  sgr_count s n -> 0 <= max_cols ->
  visible_chars (AnsiHelp.truncate_visible s max_cols)
  = firstn (Z.to_nat max_cols) (visible_chars s).
Proof.
  intros Hs Hm. unfold AnsiHelp.truncate_visible.
  destruct (max_cols <=? 0) eqn:E.
  - replace (Z.to_nat max_cols) with 0%nat by lia.
    rewrite visible_chars_nil. reflexivity.
  - rewrite (visible_chars_truncate_from max_cols s n 0 Hs) by lia.
    now rewrite Z.sub_0_r.
Qed.

Lemma head_ok_app (a b : pystr) : head_ok a -> head_ok b -> head_ok (a ++ b).
Proof. destruct a; simpl; auto. Qed.

Lemma row_cell_styled (self : VerticalBarChart) (k : kind) (r : Z)
  (denom : pyfloat) (c : pyfloat * pyfloat * Z * Z) (cell : pystr) :
  cell_sgr_param self ->
  match k with
  | pos => pos_cell self r denom
  | _ => neg_cell self r denom
  end c = Ok cell ->
  exists g, cell_glyph self k r c = Ok g /\
            sgr_count cell 1 /\ head_ok cell /\ visible_chars cell = [g].
Proof.
  intros Hp H. destruct c as [[[lv rv] ls] rs].
  assert (Hk : exists g k',
            cell_glyph self k r (lv, rv, ls, rs) = Ok g /\
            _style_cell self g lv rv denom k' r = Ok cell).
  { destruct k; unfold pos_cell, neg_cell in H;
      apply bind_Ok in H; destruct H as [g [Hg H]]; exists g; eauto. }
  destruct Hk as (g & k' & Hg & Hcell). exists g. split; [exact Hg|].
  destruct (cell_glyph_plain self k r _ g Hg) as [H1 H2].
  now apply (_style_cell_count self g lv rv denom k' r).
Qed.

Lemma row_cells_styled (self : VerticalBarChart) (k : kind) (r : Z)
  (denom : pyfloat) (cells : list (pyfloat * pyfloat * Z * Z)) (cs : list pystr) :
  cell_sgr_param self ->
  mapM (match k with
        | pos => pos_cell self r denom
        | _ => neg_cell self r denom
        end) cells = Ok cs ->
  exists glyphs,
    mapM (cell_glyph self k r) cells = Ok glyphs /\
    sgr_count (List.concat cs) (len glyphs) /\ head_ok (List.concat cs) /\
    visible_chars (List.concat cs) = glyphs.
Proof.
  intros Hp. revert cs. induction cells as [|c cells IH]; intros cs H.
  - simpl in H. injection H as <-. exists [].
    split; [reflexivity|]. split; [constructor|].
    split; [exact I | apply visible_chars_nil].
  - simpl in H. apply bind_Ok in H. destruct H as [cell [Hcell H]].
    apply bind_Ok in H. destruct H as [rest [Hrest H]]. injection H as <-.
    destruct (row_cell_styled self k r denom c cell Hp Hcell)
      as (g & Hg & Hcount & Hhead & Hvis).
    destruct (IH rest Hrest) as (glyphs & Hglyphs & Hcs & Hh & Hv).
    exists (g :: glyphs). simpl. rewrite Hg, Hglyphs. simpl.
    split; [reflexivity|]. split; [|split].
    + apply sgr_count_eq with (n := 1 + len glyphs).
      * now apply sgr_count_app.
      * unfold len. simpl List.length. lia.
    + now apply head_ok_app.
    + rewrite (visible_chars_app cell _ 1 Hcount Hh), Hvis, Hv. reflexivity.
Qed.

(** A row shows its label and then one glyph per packed column, cut at the
    column count: whatever the cell styling is, as long as it is made of SGR
    parameter strings, it adds nothing visible and moves nothing. *)
Theorem row_shows_glyphs (str_format : pystr -> pynum -> result pystr)
  (self : VerticalBarChart) (k : kind) (cols : Z) (denom : pyfloat)
  (forced : bool) (y_w : Z) (cells : list (pyfloat * pyfloat * Z * Z)) (r : Z)
  (line : pystr) :
  0 <= cols ->
  cell_sgr_param self ->
  bar_row str_format self k cols denom forced y_w cells r = Ok line ->
  exists lbl glyphs,
    label_part str_format self k r denom forced y_w = Ok lbl /\
    mapM (cell_glyph self k r) cells = Ok glyphs /\
    (complete_sgr (List.concat lbl) ->
     visible_chars line
     = firstn (Z.to_nat cols) (visible_chars (List.concat lbl) ++ glyphs)) /\
    (show_y_axis self = false ->
     visible_chars line = firstn (Z.to_nat cols) glyphs).
Proof.
  intros Hc Hp H. unfold bar_row in H.
  apply bind_Ok in H. destruct H as [lbl [Hlbl H]].
  apply bind_Ok in H. destruct H as [cs [Hcs H]]. injection H as <-.
  destruct (row_cells_styled self k r denom cells cs Hp Hcs)
    as (glyphs & Hglyphs & Hcount & Hhead & Hvis).
  exists lbl, glyphs. split; [exact Hlbl|]. split; [exact Hglyphs|].
  assert (Hgen : complete_sgr (List.concat lbl) ->
            visible_chars (AnsiHelp.truncate_visible (List.concat (lbl ++ cs)) cols)
            = firstn (Z.to_nat cols) (visible_chars (List.concat lbl) ++ glyphs)).
  { intros [n Hn]. rewrite concat_app.
    rewrite (visible_chars_truncate_visible _ (n + len glyphs) cols)
      by (try apply sgr_count_app; assumption).
    now rewrite (visible_chars_app _ _ n Hn Hhead), Hvis. }
  split; [exact Hgen|].
  intros Haxis. unfold label_part in Hlbl. rewrite Haxis in Hlbl.
  injection Hlbl as <-. rewrite Hgen.
  - simpl. rewrite visible_chars_nil. reflexivity.
  - exists 0. constructor.
Qed.

Lemma row_shows_glyphs_witness :
  exists lbl glyphs,
    label_part no_format painted_chart pos 10 (Fin 100) false 6 = Ok lbl /\
    mapM (cell_glyph painted_chart pos 10) [(Fin 100, Fin (-100), 20, -20)]
    = Ok glyphs /\
    (complete_sgr (List.concat lbl) ->
     visible_chars (AnsiHelp.truncate_visible
                      (str " 100% " ++ AnsiHelp._sgr_wrap (Some (str "38;5;39"))
                                         [0x258c%N]) 80)
     = firstn (Z.to_nat 80) (visible_chars (List.concat lbl) ++ glyphs)) /\
    (show_y_axis painted_chart = false ->
     visible_chars (AnsiHelp.truncate_visible
                      (str " 100% " ++ AnsiHelp._sgr_wrap (Some (str "38;5;39"))
                                         [0x258c%N]) 80)
     = firstn (Z.to_nat 80) glyphs).
Proof.
  apply (row_shows_glyphs no_format painted_chart pos 80 (Fin 100) false 6
           [(Fin 100, Fin (-100), 20, -20)] 10).
  - lia.
  - intros ctx. vm_compute. intuition discriminate.
  - vm_compute. reflexivity.
Defined.

(** * The demo: [src/demo.py]

    The colour helpers of the demo, with the float literals [0.33], [0.66]
    and [0.85] taken as the rationals they denote. *)

Definition GREEN : pystr := str "38;5;46".
Definition YELLOW : pystr := str "38;5;226".
Definition ORANGE : pystr := str "38;5;208".
Definition RED : pystr := str "38;5;196".

Definition heatmap_sgr (x vmax : pyfloat) : result pystr :=
  let vmax := if flt_le vmax (Fin 0) then Fin 1 else vmax in
  if flt_lt x (Fin 0) then Ok RED
  else
    q <- flt_div x vmax ;;
    let t := py_max (Fin 0) (py_min (Fin 1) q) in
    (* green(46) -> yellow(226) -> orange(208) -> red(196) *)
    if flt_lt t (Fin (33 # 100)) then Ok GREEN
    else if flt_lt t (Fin (66 # 100)) then Ok YELLOW
    else if flt_lt t (Fin (85 # 100)) then Ok ORANGE
    else Ok RED.

(** [value2sgr] in [main]; [dim] is the colour of an empty cell. *)
Definition cell_heat (dim : pystr) (ctx : CellStyleContext) : result pystr :=
  if (glyph ctx =? SPACE)%N then Ok dim
  else
    let vl := value_left ctx in
    let vr := value_right ctx in
    match row_kind ctx with
    | pos =>
        match filter (fun x => flt_lt (Fin 0) x) [vl; vr] with
        | [] => Ok dim
        | candidates => m <- py_max_list candidates ;; heatmap_sgr m (Fin 100)
        end
    | _ =>
        match filter (fun x => flt_lt x (Fin 0)) [vl; vr] with
        | [] => Ok dim
        | _ => Ok RED
        end
    end.

Definition value2sgr : CellStyleContext -> result pystr :=
  cell_heat (str "38;5;238").

(** The position of a colour on the scale green, yellow, orange, red. *)
Definition heat_rank (p : pystr) : Z :=
  if pystr_eqb p GREEN then 0
  else if pystr_eqb p YELLOW then 1
  else if pystr_eqb p ORANGE then 2
  else 3.

(** The colour that [t] in [[0, 1]] selects. *)
Definition heat_of (t : Q) : pystr :=
  if Qlt_bool t (33 # 100) then GREEN
  else if Qlt_bool t (66 # 100) then YELLOW
  else if Qlt_bool t (85 # 100) then ORANGE
  else RED.

Lemma unit_clamp_fin (q : Q) :
  exists t, py_max (Fin 0) (py_min (Fin 1) (Fin q)) = Fin t /\
    ((q <= 0 /\ t == 0) \/ (0 <= q <= 1 /\ t == q) \/ (1 <= q /\ t == 1))%Q.
Proof.
  unfold py_min, py_max. simpl.
  destruct (Qlt_bool q 1) eqn:E1; simpl.
  - apply Qlt_bool_iff in E1. destruct (Qlt_bool 0 q) eqn:E2.
    + apply Qlt_bool_iff in E2. exists q. split; [reflexivity|]. right. left.
      repeat split; auto using Qlt_le_weak; reflexivity.
    + apply Qlt_bool_false_iff in E2. exists 0%Q. split; [reflexivity|].
      left. split; [exact E2 | reflexivity].
  - apply Qlt_bool_false_iff in E1. exists 1%Q. split; [reflexivity|].
    right. right. split; [exact E1 | reflexivity].
Qed.

Lemma unit_clamp_finite (q : pyfloat) :
  exists t, py_max (Fin 0) (py_min (Fin 1) q) = Fin t.
Proof.
  destruct q as [q| | |].
  - destruct (unit_clamp_fin q) as (t & Ht & _). eauto.
  - exists 1%Q. reflexivity.
  - exists 0%Q. reflexivity.
  - exists 1%Q. reflexivity.
Qed.

Lemma heatmap_sgr_fin (x vmax q : pyfloat) (t : Q) :
  flt_lt x (Fin 0) = false ->
  flt_div x (if flt_le vmax (Fin 0) then Fin 1 else vmax) = Ok q ->
  py_max (Fin 0) (py_min (Fin 1) q) = Fin t ->
  heatmap_sgr x vmax = Ok (heat_of t).
Proof.
  intros Hx Hq Ht. unfold heatmap_sgr, heat_of. rewrite Hx, Hq. simpl bind.
  rewrite Ht. simpl flt_lt.
  destruct (Qlt_bool t (33 # 100)); [reflexivity|].
  destruct (Qlt_bool t (66 # 100)); [reflexivity|].
  destruct (Qlt_bool t (85 # 100)); reflexivity.
Qed.

Lemma heat_of_palette (t : Q) :
  In (heat_of t) [GREEN; YELLOW; ORANGE; RED].
Proof.
  unfold heat_of. destruct (Qlt_bool t (33 # 100)); [now left|].
  destruct (Qlt_bool t (66 # 100)); [right; now left|].
  destruct (Qlt_bool t (85 # 100)); [right; right; now left|].
  right; right; right; now left.
Qed.

Lemma heat_of_mono (t u : Q) : (t <= u)%Q -> heat_rank (heat_of t) <= heat_rank (heat_of u).
Proof.
  intros H. unfold heat_of.
  destruct (Qlt_bool t (33 # 100)) eqn:T1; [destruct (Qlt_bool u (33 # 100)),
    (Qlt_bool u (66 # 100)), (Qlt_bool u (85 # 100)); vm_compute; discriminate|].
  apply Qlt_bool_false_iff in T1.
  destruct (Qlt_bool u (33 # 100)) eqn:U1.
  { apply Qlt_bool_iff in U1. exfalso.
    exact (Qlt_not_le _ _ U1 (Qle_trans _ _ _ T1 H)). }
  destruct (Qlt_bool t (66 # 100)) eqn:T2; [destruct (Qlt_bool u (66 # 100)),
    (Qlt_bool u (85 # 100)); vm_compute; discriminate|].
  apply Qlt_bool_false_iff in T2.
  destruct (Qlt_bool u (66 # 100)) eqn:U2.
  { apply Qlt_bool_iff in U2. exfalso.
    exact (Qlt_not_le _ _ U2 (Qle_trans _ _ _ T2 H)). }
  destruct (Qlt_bool t (85 # 100)) eqn:T3; [destruct (Qlt_bool u (85 # 100));
    vm_compute; discriminate|].
  apply Qlt_bool_false_iff in T3.
  destruct (Qlt_bool u (85 # 100)) eqn:U3.
  { apply Qlt_bool_iff in U3. exfalso.
    exact (Qlt_not_le _ _ U3 (Qle_trans _ _ _ T3 H)). }
  vm_compute. discriminate.
Qed.

Lemma palette_param (p : pystr) :
  In p [GREEN; YELLOW; ORANGE; RED] -> ~ In LOWER_M p.
Proof.
  intros [<-|[<-|[<-|[<-|[]]]]]; vm_compute; intuition discriminate.
Qed.

Lemma heatmap_sgr_defined (x vmax : pyfloat) :
  exists p, heatmap_sgr x vmax = Ok p /\ In p [GREEN; YELLOW; ORANGE; RED] /\
            (flt_lt x (Fin 0) = true -> p = RED).
Proof.
  destruct (flt_lt x (Fin 0)) eqn:Ex.
  - exists RED. unfold heatmap_sgr. rewrite Ex.
    split; [reflexivity|]. split; [|reflexivity].
    right; right; right; now left.
  - assert (Hd : flt_le (if flt_le vmax (Fin 0) then Fin 1 else vmax) (Fin 0) = false).
    { destruct (flt_le vmax (Fin 0)) eqn:E; [reflexivity | exact E]. }
    destruct (flt_div_defined x _ Hd) as [q Hq].
    destruct (unit_clamp_finite q) as [t Ht].
    exists (heat_of t). split; [exact (heatmap_sgr_fin x vmax q t Ex Hq Ht)|].
    split; [apply heat_of_palette | discriminate].
Qed.

(** [heatmap_sgr] returns for all floats, [nan] and the infinities included;
    its result is one of the four colours of the scale, each an SGR parameter
    string, and it is red for every negative value. *)
Theorem heatmap_sgr_palette (x vmax : pyfloat) :
  exists p, heatmap_sgr x vmax = Ok p /\
            In p [GREEN; YELLOW; ORANGE; RED] /\ sgr_param (Some p) /\
            (flt_lt x (Fin 0) = true -> p = RED).
Proof.
  destruct (heatmap_sgr_defined x vmax) as (p & Hp & Hin & Hneg).
  exists p. repeat split; try assumption. now apply palette_param.
Qed.

(** For finite values that are not negative, a larger value never gets a
    colour lower on the scale green, yellow, orange, red, whatever the
    maximum is. *)
Theorem heatmap_sgr_monotone (x y : Q) (vmax : pyfloat) :
  (0 <= x)%Q -> (x <= y)%Q ->
  exists px py,
    heatmap_sgr (Fin x) vmax = Ok px /\ heatmap_sgr (Fin y) vmax = Ok py /\
    heat_rank px <= heat_rank py.
Proof.
  intros Hx Hxy.
  assert (Ex : flt_lt (Fin x) (Fin 0) = false) by now apply Qlt_bool_false_iff.
  assert (Ey : flt_lt (Fin y) (Fin 0) = false).
  { apply Qlt_bool_false_iff. now apply Qle_trans with x. }
  assert (Hd : flt_le (if flt_le vmax (Fin 0) then Fin 1 else vmax) (Fin 0) = false).
  { destruct (flt_le vmax (Fin 0)) eqn:E; [reflexivity | exact E]. }
  destruct (flt_le_zero_false _ Hd) as [[d [Hvm Hpos]]|[Hvm|Hvm]].
  - destruct (unit_clamp_fin (x / d)) as (t & Et & Ht).
    destruct (unit_clamp_fin (y / d)) as (u & Eu & Hu).
    exists (heat_of t), (heat_of u).
    split; [|split].
    + apply (heatmap_sgr_fin (Fin x) vmax (Fin (x / d)) t Ex); [|exact Et].
      rewrite Hvm. simpl. now rewrite (Qeq_bool_pos_false d Hpos).
    + apply (heatmap_sgr_fin (Fin y) vmax (Fin (y / d)) u Ey); [|exact Eu].
      rewrite Hvm. simpl. now rewrite (Qeq_bool_pos_false d Hpos).
    + apply heat_of_mono.
      assert (Hq : (x / d <= y / d)%Q).
      { apply Qmult_le_compat_r; [exact Hxy|].
        apply Qlt_le_weak, Qinv_lt_0_compat. exact Hpos. }
      revert Hq Ht Hu. generalize (x / d)%Q (y / d)%Q. intros a b Hq Ht Hu.
      destruct Ht as [[Ht1 Ht]|[[[Ht1 Ht2] Ht]|[Ht1 Ht]]];
        destruct Hu as [[Hu1 Hu]|[[[Hu1 Hu2] Hu]|[Hu1 Hu]]]; lra.
  - exists (heat_of 0), (heat_of 0). split; [|split; [|lia]].
    + apply (heatmap_sgr_fin (Fin x) vmax (Fin 0) 0 Ex); [|reflexivity].
      now rewrite Hvm.
    + apply (heatmap_sgr_fin (Fin y) vmax (Fin 0) 0 Ey); [|reflexivity].
      now rewrite Hvm.
  - exists (heat_of 1), (heat_of 1). split; [|split; [|lia]].
    + apply (heatmap_sgr_fin (Fin x) vmax NaN 1 Ex); [|reflexivity].
      now rewrite Hvm.
    + apply (heatmap_sgr_fin (Fin y) vmax NaN 1 Ey); [|reflexivity].
      now rewrite Hvm.
Qed.

Lemma heatmap_sgr_monotone_witness :
  exists px py,
    heatmap_sgr (Fin 40) (Fin 100) = Ok px /\ heatmap_sgr (Fin 90) (Fin 100) = Ok py /\
    heat_rank px <= heat_rank py.
Proof.
  apply (heatmap_sgr_monotone 40 90 (Fin 100)); discriminate.
Defined.

(** The cell colouring of the demo returns for every cell, and what it
    returns is an SGR parameter string: an empty cell gets the dim colour,
    and a filled cell of a negative row is red. *)
Theorem value2sgr_param (ctx : CellStyleContext) :
  exists p, value2sgr ctx = Ok p /\ sgr_param (Some p) /\
            (glyph ctx = SPACE -> p = str "38;5;238") /\
            (glyph ctx <> SPACE -> row_kind ctx = neg ->
             p = RED \/ p = str "38;5;238").
Proof.
  unfold value2sgr, cell_heat.
  assert (Hdim : ~ In LOWER_M (str "38;5;238")) by (vm_compute; intuition discriminate).
  assert (Hred : ~ In LOWER_M RED) by (vm_compute; intuition discriminate).
  destruct (glyph ctx =? SPACE)%N eqn:Eg.
  { apply N.eqb_eq in Eg. exists (str "38;5;238").
    split; [reflexivity|]. split; [exact Hdim|]. split; [reflexivity|].
    intros Hne. contradiction. }
  apply N.eqb_neq in Eg.
  destruct (row_kind ctx) eqn:Ek.
  - assert (Hheat : forall m, exists p,
              heatmap_sgr m (Fin 100) = Ok p /\ sgr_param (Some p)).
    { intros m. destruct (heatmap_sgr_defined m (Fin 100)) as (p & Hp & Hin & _).
      exists p. split; [exact Hp | now apply palette_param]. }
    assert (Hdone : forall m, exists p,
              heatmap_sgr m (Fin 100) = Ok p /\ sgr_param (Some p) /\
              (glyph ctx = SPACE -> p = str "38;5;238") /\
              (glyph ctx <> SPACE -> pos = neg -> p = RED \/ p = str "38;5;238")).
    { intros m. destruct (Hheat m) as (p & Hp & Hparam). exists p.
      split; [exact Hp|]. split; [exact Hparam|].
      split; [intros; contradiction | intros; discriminate]. }
    cbn [filter].
    destruct (flt_lt (Fin 0) (value_left ctx));
      destruct (flt_lt (Fin 0) (value_right ctx));
      cbn [bind py_max_list fold_left]; try apply Hdone.
    exists (str "38;5;238").
    split; [reflexivity|]. split; [exact Hdim|].
    split; [reflexivity | intros; discriminate].
  - cbn [filter].
    destruct (flt_lt (value_left ctx) (Fin 0));
      destruct (flt_lt (value_right ctx) (Fin 0)); cbn [bind];
      eexists; (split; [reflexivity|]);
      (split; [first [exact Hred | exact Hdim]|]);
      (split; [intros; contradiction | intros; auto]).
  - cbn [filter].
    destruct (flt_lt (value_left ctx) (Fin 0));
      destruct (flt_lt (value_right ctx) (Fin 0)); cbn [bind];
      eexists; (split; [reflexivity|]);
      (split; [first [exact Hred | exact Hdim]|]);
      (split; [intros; contradiction | intros; discriminate]).
Qed.

(** * More on the layout and the quantisation *)

(** The column count is never below 20, and without an explicit width it is
    the terminal's, floored at 20. *)
Theorem term_cols_at_least_20 (terminal_columns : Z) (self : VerticalBarChart) :
  20 <= _term_cols terminal_columns self /\
  (width self = None ->
   _term_cols terminal_columns self = Z.max 20 terminal_columns).
Proof.
  split; [apply _term_cols_floor|].
  intros H. unfold _term_cols. now rewrite H.
Qed.

(** With percent labels the y axis is five columns wide, and six when the
    chart has ten negative rows (the label "-100% "); it is 0 when the axis
    is hidden. *)
Theorem percent_axis_width (str_format : pystr -> pynum -> result pystr)
  (self : VerticalBarChart) (denom : pyfloat) (neg_rows : Z) :
  0 <= neg_rows <= 10 ->
  y_axis_width str_format self denom false neg_rows
  = Ok (if show_y_axis self then (if neg_rows =? 10 then 6 else 5) else 0).
Proof.
  intros H. unfold y_axis_width. destruct (show_y_axis self); [|reflexivity].
  assert (E : neg_rows = 0 \/ neg_rows = 1 \/ neg_rows = 2 \/ neg_rows = 3
              \/ neg_rows = 4 \/ neg_rows = 5 \/ neg_rows = 6 \/ neg_rows = 7
              \/ neg_rows = 8 \/ neg_rows = 9 \/ neg_rows = 10) by lia.
  repeat (destruct E as [-> | E]; [vm_compute; reflexivity|]).
  subst. vm_compute. reflexivity.
Qed.

Lemma percent_axis_width_witness :
  y_axis_width no_format scenario (Fin 100) false 10 = Ok 6.
Proof.
  apply (percent_axis_width no_format scenario (Fin 100) 10). lia.
Defined.

Lemma term_cols_at_least_20_witness :
  20 <= _term_cols 7 (default_chart []) /\ _term_cols 7 (default_chart []) = 20.
Proof.
  destruct (term_cols_at_least_20 7 (default_chart [])) as [H1 H2].
  split; [exact H1 | exact (H2 eq_refl)].
Defined.

Lemma heatmap_sgr_palette_witness :
  exists p, heatmap_sgr (Fin (-3)) (Fin 100) = Ok p /\ p = RED.
Proof.
  destruct (heatmap_sgr_palette (Fin (-3)) (Fin 100)) as (p & Hp & _ & _ & Hneg).
  exists p. split; [exact Hp | exact (Hneg eq_refl)].
Defined.

(** A filled cell of the first negative row, over the values 5 and -7. *)
Definition negative_cell : CellStyleContext :=
  {| value_left := Fin 5; value_right := Fin (-7);
     pct_left := Fin (5 # 100); pct_right := Fin (-7 # 100);
     row_kind := neg; row := 1; glyph := 0x259d%N |}.

Lemma value2sgr_param_witness :
  exists p, value2sgr negative_cell = Ok p /\
            (p = RED \/ p = str "38;5;238").
Proof.
  destruct (value2sgr_param negative_cell) as (p & Hp & _ & _ & Hneg).
  exists p. split; [exact Hp|]. apply Hneg; [discriminate | reflexivity].
Defined.
